(** * controller-runtime metrics: measures, recording adapters and views

    A shallow embedding of the two metrics packages of controller-runtime,

    - [pkg/metrics] (client-go adapter and its default views), and
    - [pkg/webhook/metrics] (webhook measures and their views),

    together with the properties the specification states about them.

    The packages are thin: every adapter method turns one callback of
    client-go into one call of the OpenCensus export runtime.  The export
    runtime is not part of the repository, so it is kept abstract here: a
    Go function is a tree of calls into the runtime ([Go]), and a
    [Runtime] answers the calls.  Properties are stated about the calls an
    adapter makes, for every runtime. *)

From Stdlib Require Import ZArith Ascii String List Lia.
From Stdlib Require Import Floats.PrimFloat Numbers.Cyclic.Int63.Uint63.
From Stdlib Require Import Floats.SpecFloat Floats.FloatOps Floats.FloatAxioms.
From stdpp Require Import list strings.

Set Warnings "-inexact-float".
Local Open Scope string_scope.
Local Open Scope list_scope.

(** ** Go values used by the packages *)

(** Go's [error] values; only their presence matters to the adapters. *)
Definition error : Type := string.

(** [float64]: IEEE 754 binary64, the kernel's primitive floats. *)
Definition float64 : Type := PrimFloat.float.

(** [float64(z)] for an [int64] [z] of magnitude below [2^63]. *)
Definition float64_of_int64 (z : Z) : float64 :=
  if (0 <=? z)%Z then PrimFloat.of_uint63 (Uint63.of_Z z)
  else PrimFloat.opp (PrimFloat.of_uint63 (Uint63.of_Z (- z))).

(** [time.Duration] is an [int64] count of nanoseconds. *)
Definition time_Duration : Type := Z.
Definition time_Second : time_Duration := 1000000000%Z.

(** [time.Duration.Seconds] of Go's standard library:
    [sec := d / Second; nsec := d % Second;
     return float64(sec) + float64(nsec)/1e9]
    (Go's [/] and [%] truncate towards zero). *)
Definition time_Duration_Seconds (d : time_Duration) : float64 :=
  let sec := Z.quot d time_Second in
  let nsec := Z.rem d time_Second in
  PrimFloat.add (float64_of_int64 sec)
                (PrimFloat.div (float64_of_int64 nsec) 1e9%float).

(** [net/url.URL].  The adapters only ever call [u.String()], so a URL is
    represented by the string that call returns. *)
Record url_URL : Type := { url_String : string }.

(** ** go.opencensus.io/tag *)

Record tag_Key : Type := { tag_Key_Name : string }.

#[global] Instance tag_Key_eq_dec : EqDecision tag_Key.
Proof. solve_decision. Defined.

(** The restrictions on tag keys, as quoted in pkg/webhook/metrics/metrics.go
    from go.opencensus.io/tag/validate.go: length between 1 and 255
    inclusive, characters printable US-ASCII (codes 32 to 126). *)
Definition printable (b : ascii) : bool :=
  (32 <=? nat_of_ascii b)%nat && (nat_of_ascii b <=? 126)%nat.

Definition checkKeyName (name : string) : bool :=
  (1 <=? String.length name)%nat && (String.length name <=? 255)%nat
  && forallb printable (list_ascii_of_string name).

Definition errInvalidKeyName : error :=
  "invalid key name: only ASCII characters accepted; max length must be 255 characters".

(** [tag.NewKey(name)]: the key and a nil error when the name is valid, the
    zero key and an error otherwise. *)
Definition tag_NewKey (name : string) : tag_Key * option error :=
  if checkKeyName name then ({| tag_Key_Name := name |}, None)
  else ({| tag_Key_Name := "" |}, Some errInvalidKeyName).

(** [tag.Mutator]: the packages build mutators with [tag.Insert] only. *)
Inductive tag_Mutator : Type :=
| tag_Insert (k : tag_Key) (v : string).

#[global] Instance tag_Mutator_eq_dec : EqDecision tag_Mutator.
Proof. solve_decision. Defined.

Definition Mutator_pair (m : tag_Mutator) : tag_Key * string :=
  match m with tag_Insert k v => (k, v) end.

(** [context.Context]: the root [context.Background()], or a child that
    carries a tag map (what [tag.New] returns on success). *)
Inductive Context : Type :=
| context_Background
| context_WithTags (parent : Context) (tags : list (tag_Key * string)).

(** ** go.opencensus.io/stats *)

(** [*stats.Int64Measure] and [*stats.Float64Measure], built by
    [stats.Int64(name, description, unit)] and [stats.Float64(...)]. *)
Record stats_Int64Measure : Type :=
  stats_Int64 { Int64_name : string; Int64_description : string; Int64_unit : string }.

Record stats_Float64Measure : Type :=
  stats_Float64 { Float64_name : string; Float64_description : string; Float64_unit : string }.

(** [stats.UnitNone], OpenCensus's name for the dimensionless unit. *)
Definition stats_UnitNone : string := "1".

(** The interface [stats.Measure]: a measure of either kind. *)
Inductive stats_Measure : Type :=
| IntMeasure (m : stats_Int64Measure)
| FloatMeasure (m : stats_Float64Measure).

#[global] Instance stats_Int64Measure_eq_dec : EqDecision stats_Int64Measure.
Proof. solve_decision. Defined.
#[global] Instance stats_Float64Measure_eq_dec : EqDecision stats_Float64Measure.
Proof. solve_decision. Defined.
#[global] Instance stats_Measure_eq_dec : EqDecision stats_Measure.
Proof. solve_decision. Defined.

Definition Measure_Name (m : stats_Measure) : string :=
  match m with
  | IntMeasure m => Int64_name m
  | FloatMeasure m => Float64_name m
  end.

(** [stats.Measurement]: a value recorded against a measure, as built by
    the [M] method of the measure. *)
Inductive stats_Measurement : Type :=
| Int64Measurement (m : stats_Int64Measure) (v : Z)
| Float64Measurement (m : stats_Float64Measure) (v : float64).

Definition Int64Measure_M (m : stats_Int64Measure) (v : Z) : stats_Measurement :=
  Int64Measurement m v.

Definition Float64Measure_M (m : stats_Float64Measure) (v : float64) : stats_Measurement :=
  Float64Measurement m v.

Definition Measurement_Measure (m : stats_Measurement) : stats_Measure :=
  match m with
  | Int64Measurement m _ => IntMeasure m
  | Float64Measurement m _ => FloatMeasure m
  end.

(** The value of an integer measurement ([0] for a float one, which the
    counter adapters never build). *)
Definition Measurement_Int64 (m : stats_Measurement) : Z :=
  match m with
  | Int64Measurement _ v => v
  | Float64Measurement _ _ => 0%Z
  end.

(** ** The boundary with the export runtime

    The three entry points of OpenCensus the adapters call.  [tag.New]
    answers with a context and an error, [stats.Record] answers nothing,
    [stats.RecordWithTags] answers with an error. *)
Inductive Call : Type :=
| CallTagNew (ctx : Context) (mutators : list tag_Mutator)
| CallRecord (ctx : Context) (ms : list stats_Measurement)
| CallRecordWithTags (ctx : Context) (mutators : list tag_Mutator)
                     (ms : list stats_Measurement).

Definition Reply (c : Call) : Type :=
  match c with
  | CallTagNew _ _ => (Context * option error)%type
  | CallRecord _ _ => unit
  | CallRecordWithTags _ _ _ => option error
  end.

(** A Go function body: it returns, panics, or calls the runtime and goes
    on with the answer. *)
Inductive Go (A : Type) : Type :=
| Return (a : A)
| Panic (e : error)
| Do (c : Call) (k : Reply c -> Go A).

Arguments Return {A} a.
Arguments Panic {A} e.
Arguments Do {A} c k.

Fixpoint Go_bind {A B : Type} (f : A -> Go B) (p : Go A) : Go B :=
  match p with
  | Return a => f a
  | Panic e => Panic e
  | Do c k => Do c (fun r => Go_bind f (k r))
  end.

#[global] Instance Go_mret : MRet Go := @Return.
#[global] Instance Go_mbind : MBind Go := @Go_bind.

Definition tag_New (ctx : Context) (mutators : list tag_Mutator)
  : Go (Context * option error) :=
  Do (CallTagNew ctx mutators) Return.

Definition stats_Record (ctx : Context) (ms : list stats_Measurement) : Go unit :=
  Do (CallRecord ctx ms) Return.

Definition stats_RecordWithTags (ctx : Context) (mutators : list tag_Mutator)
  (ms : list stats_Measurement) : Go (option error) :=
  Do (CallRecordWithTags ctx mutators ms) Return.

(** An export runtime: some state, and an answer to every call. *)
Record Runtime : Type := {
  World : Type;
  reply : forall c : Call, World -> Reply c * World
}.

Inductive Outcome (A : Type) : Type :=
| Returned (a : A)
| Panicked (e : error).

Arguments Returned {A} a.
Arguments Panicked {A} e.

(** Running a body against a runtime: the calls made, in order, how the
    body ended, and the runtime's final state. *)
Record Run (A W : Type) : Type := {
  trace : list Call;
  outcome : Outcome A;
  final : W
}.

Arguments trace {A W} r.
Arguments outcome {A W} r.
Arguments final {A W} r.

Fixpoint run {A : Type} (rt : Runtime) (p : Go A) (w : World rt) : Run A (World rt) :=
  match p with
  | Return a => {| trace := []; outcome := Returned a; final := w |}
  | Panic e => {| trace := []; outcome := Panicked e; final := w |}
  | Do c k =>
      let '(r, w') := reply rt c w in
      let rest := run rt (k r) w' in
      {| trace := c :: trace rest; outcome := outcome rest; final := final rest |}
  end.

(** What a call hands over: the measurements to record, and the tags it
    asks the runtime to insert. *)
Definition measurements (c : Call) : list stats_Measurement :=
  match c with
  | CallTagNew _ _ => []
  | CallRecord _ ms => ms
  | CallRecordWithTags _ _ ms => ms
  end.

Definition inserted (c : Call) : list (tag_Key * string) :=
  match c with
  | CallTagNew _ mutators => map Mutator_pair mutators
  | CallRecord _ _ => []
  | CallRecordWithTags _ mutators _ => map Mutator_pair mutators
  end.

Definition recorded (tr : list Call) : list stats_Measurement :=
  concat (map measurements tr).

Definition recorded_measures (tr : list Call) : list stats_Measure :=
  map Measurement_Measure (recorded tr).

Definition inserted_keys (tr : list Call) : list tag_Key :=
  map fst (concat (map inserted tr)).

(** ** go.opencensus.io/stats/view *)

Inductive view_Aggregation : Type :=
| view_Count
| view_LastValue
| view_Distribution (bounds : list float64).

Record view_View : Type := {
  Name : string;
  Description : string;
  Measure : stats_Measure;
  Aggregation : view_Aggregation;
  TagKeys : list tag_Key
}.

(** ** Package pkg/metrics *)

Module metrics.

(** *** Measures (client_go_adapter.go) *)

(* client metrics *)

Definition MeasureRequestLatency : stats_Float64Measure :=
  stats_Float64
    "sigs.kubernetes.io/controller-runtime/measures/rest_client_request_latency_seconds"
    "Request latency in seconds"
    "s".

Definition MeasureRequestResult : stats_Int64Measure :=
  stats_Int64
    "sigs.kubernetes.io/controller-runtime/measures/rest_client_requests_total"
    "Number of HTTP requests"
    stats_UnitNone.

(* reflector metrics *)

Definition MeasureListsTotal : stats_Int64Measure :=
  stats_Int64
    "sigs.kubernetes.io/controller-runtime/measures/reflector_lists_total"
    "Total number of API lists done by the reflectors"
    stats_UnitNone.

Definition MeasureListsDuration : stats_Float64Measure :=
  stats_Float64
    "sigs.kubernetes.io/controller-runtime/measures/reflector_list_duration_seconds"
    "How long an API list takes to return and decode for the reflectors"
    stats_UnitNone.

Definition MeasureItemsPerList : stats_Float64Measure :=
  stats_Float64
    "sigs.kubernetes.io/controller-runtime/measures/reflector_items_per_list"
    "How many items an API list returns to the reflectors"
    stats_UnitNone.

Definition MeasureWatchesTotal : stats_Int64Measure :=
  stats_Int64
    "sigs.kubernetes.io/controller-runtime/measures/reflector_watches_total"
    "Total number of API watches done by the reflectors"
    stats_UnitNone.

Definition MeasureShortWatchesTotal : stats_Int64Measure :=
  stats_Int64
    "sigs.kubernetes.io/controller-runtime/measures/reflector_short_watches_total"
    "Total number of short API watches done by the reflectors"
    stats_UnitNone.

Definition MeasureWatchDuration : stats_Float64Measure :=
  stats_Float64
    "sigs.kubernetes.io/controller-runtime/measures/reflector_watch_duration_seconds"
    "How long an API watch takes to return and decode for the reflectors"
    stats_UnitNone.

Definition MeasureItemsPerWatch : stats_Float64Measure :=
  stats_Float64
    "sigs.kubernetes.io/controller-runtime/measures/reflector_items_per_watch"
    "How many items an API watch returns to the reflectors"
    stats_UnitNone.

Definition MeasureLastResourceVersion : stats_Float64Measure :=
  stats_Float64
    "sigs.kubernetes.io/controller-runtime/measures/reflector_last_resource_version"
    "Last resource version seen for the reflectors"
    stats_UnitNone.

(* workqueue metrics *)

Definition MeasureDepth : stats_Int64Measure :=
  stats_Int64
    "sigs.kubernetes.io/controller-runtime/measures/workqueue_depth"
    "Current depth of workqueue"
    stats_UnitNone.

Definition MeasureAdds : stats_Int64Measure :=
  stats_Int64
    "sigs.kubernetes.io/controller-runtime/measures/workqueue_adds_total"
    "Total number of adds handled by workqueue"
    stats_UnitNone.

Definition MeasureLatency : stats_Float64Measure :=
  stats_Float64
    "sigs.kubernetes.io/controller-runtime/measures/workqueue_queue_latency_seconds"
    "How long in seconds an item stays in workqueue before being requested."
    "s".

Definition MeasureWorkDuration : stats_Float64Measure :=
  stats_Float64
    "sigs.kubernetes.io/controller-runtime/measures/workqueue_work_duration_seconds"
    "How long in seconds processing an item from workqueue takes."
    "s".

Definition MeasureRetries : stats_Int64Measure :=
  stats_Int64
    "sigs.kubernetes.io/controller-runtime/measures/workqueue_retries_total"
    "Total number of retries handled by workqueue"
    "s".

Definition MeasureLongestRunning : stats_Float64Measure :=
  stats_Float64
    "sigs.kubernetes.io/controller-runtime/measures/workqueue_longest_running_processor_microseconds"
    "How many microseconds has the longest running processor for workqueue been running."
    "us".

Definition MeasureUnfinishedWork : stats_Float64Measure :=
  stats_Float64
    "sigs.kubernetes.io/controller-runtime/measures/workqueue_unfinished_work_seconds"
    ("How many seconds of work has done that is in progress and hasn't been observed " +:+
     "by work_duration. Large values indicate stuck threads. One can deduce the " +:+
     "number of stuck threads by observing the rate at which this increases.")
    "s".

(** The measures the package declares, in declaration order. *)
Definition Measures : list stats_Measure :=
  [ FloatMeasure MeasureRequestLatency; IntMeasure MeasureRequestResult;
    IntMeasure MeasureListsTotal; FloatMeasure MeasureListsDuration;
    FloatMeasure MeasureItemsPerList; IntMeasure MeasureWatchesTotal;
    IntMeasure MeasureShortWatchesTotal; FloatMeasure MeasureWatchDuration;
    FloatMeasure MeasureItemsPerWatch; FloatMeasure MeasureLastResourceVersion;
    IntMeasure MeasureDepth; IntMeasure MeasureAdds; FloatMeasure MeasureLatency;
    FloatMeasure MeasureWorkDuration; IntMeasure MeasureRetries;
    FloatMeasure MeasureLongestRunning; FloatMeasure MeasureUnfinishedWork ].

(** *** Tag keys *)

Definition mustNewTagKey (k : string) : Go tag_Key :=
  let '(tagKey, err) := tag_NewKey k in
  match err with
  | Some e => Panic e
  | None => Return tagKey
  end.

(** The names handed to [mustNewTagKey] by the package's variable
    declarations, in declaration order, and the initialisation they
    amount to. *)
Definition TagKeyNames : list string :=
  ["verb"; "url"; "code"; "method"; "host"; "name"].

Definition initTagKeys : Go (list tag_Key) := mapM mustNewTagKey TagKeyNames.

(** The values the variables hold once initialisation has returned. *)
Definition TagVerb : tag_Key := {| tag_Key_Name := "verb" |}.
Definition TagURL : tag_Key := {| tag_Key_Name := "url" |}.
Definition TagCode : tag_Key := {| tag_Key_Name := "code" |}.
Definition TagMethod : tag_Key := {| tag_Key_Name := "method" |}.
Definition TagHost : tag_Key := {| tag_Key_Name := "host" |}.
Definition TagName : tag_Key := {| tag_Key_Name := "name" |}.

(** *** Client metrics adapters

    The adapters hold a pointer to their measure.  The package only ever
    builds them on a declared measure, so the pointer is the measure. *)

Record latencyAdapter : Type := { latencyAdapter_metric : stats_Float64Measure }.

Definition latencyAdapter_Observe (a : latencyAdapter) (verb : string) (u : url_URL)
  (latency : time_Duration) : Go unit :=
  '(ctx, _) ← tag_New context_Background
                [tag_Insert TagVerb verb; tag_Insert TagURL (url_String u)];
  stats_Record ctx
    [Float64Measure_M (latencyAdapter_metric a) (time_Duration_Seconds latency)].

Record resultAdapter : Type := { resultAdapter_metric : stats_Int64Measure }.

Definition resultAdapter_Increment (a : resultAdapter) (code method host : string)
  : Go unit :=
  '(ctx, _) ← tag_New context_Background
                [tag_Insert TagCode code; tag_Insert TagMethod method;
                 tag_Insert TagHost host];
  stats_Record ctx [Int64Measure_M (resultAdapter_metric a) 1].

(** *** Reflector and workqueue metrics *)

Record intMetric : Type := {
  intMetric_mutators : list tag_Mutator;
  intMetric_measure : stats_Int64Measure
}.

(** The error [stats.RecordWithTags] returns is dropped: the call is a
    statement. *)
Definition intMetric_Inc (m : intMetric) : Go unit :=
  _ ← stats_RecordWithTags context_Background (intMetric_mutators m)
        [Int64Measure_M (intMetric_measure m) 1];
  mret tt.

Definition intMetric_Dec (m : intMetric) : Go unit :=
  _ ← stats_RecordWithTags context_Background (intMetric_mutators m)
        [Int64Measure_M (intMetric_measure m) (-1)];
  mret tt.

Record floatMetric : Type := {
  floatMetric_mutators : list tag_Mutator;
  floatMetric_measure : stats_Float64Measure
}.

Definition floatMetric_Observe (m : floatMetric) (v : float64) : Go unit :=
  _ ← stats_RecordWithTags context_Background (floatMetric_mutators m)
        [Float64Measure_M (floatMetric_measure m) v];
  mret tt.

Definition floatMetric_Set (m : floatMetric) (v : float64) : Go unit :=
  floatMetric_Observe m v.

Module reflectorMetricsProvider.

Definition NewListsMetric (name : string) : intMetric :=
  {| intMetric_mutators := [tag_Insert TagName name];
     intMetric_measure := MeasureListsTotal |}.

Definition NewListDurationMetric (name : string) : floatMetric :=
  {| floatMetric_mutators := [tag_Insert TagName name];
     floatMetric_measure := MeasureListsDuration |}.

Definition NewItemsInListMetric (name : string) : floatMetric :=
  {| floatMetric_mutators := [tag_Insert TagName name];
     floatMetric_measure := MeasureItemsPerList |}.

Definition NewWatchesMetric (name : string) : intMetric :=
  {| intMetric_mutators := [tag_Insert TagName name];
     intMetric_measure := MeasureWatchesTotal |}.

Definition NewShortWatchesMetric (name : string) : intMetric :=
  {| intMetric_mutators := [tag_Insert TagName name];
     intMetric_measure := MeasureShortWatchesTotal |}.

Definition NewWatchDurationMetric (name : string) : floatMetric :=
  {| floatMetric_mutators := [tag_Insert TagName name];
     floatMetric_measure := MeasureWatchDuration |}.

Definition NewItemsInWatchMetric (name : string) : floatMetric :=
  {| floatMetric_mutators := [tag_Insert TagName name];
     floatMetric_measure := MeasureItemsPerWatch |}.

Definition NewLastResourceVersionMetric (name : string) : floatMetric :=
  {| floatMetric_mutators := [tag_Insert TagName name];
     floatMetric_measure := MeasureLastResourceVersion |}.

End reflectorMetricsProvider.

Module workqueueMetricsProvider.

Definition NewDepthMetric (name : string) : intMetric :=
  {| intMetric_mutators := [tag_Insert TagName name];
     intMetric_measure := MeasureDepth |}.

Definition NewAddsMetric (name : string) : intMetric :=
  {| intMetric_mutators := [tag_Insert TagName name];
     intMetric_measure := MeasureAdds |}.

Definition NewLatencyMetric (name : string) : floatMetric :=
  {| floatMetric_mutators := [tag_Insert TagName name];
     floatMetric_measure := MeasureLatency |}.

Definition NewWorkDurationMetric (name : string) : floatMetric :=
  {| floatMetric_mutators := [tag_Insert TagName name];
     floatMetric_measure := MeasureWorkDuration |}.

Definition NewRetriesMetric (name : string) : intMetric :=
  {| intMetric_mutators := [tag_Insert TagName name];
     intMetric_measure := MeasureRetries |}.

Definition NewLongestRunningProcessorMicrosecondsMetric (name : string) : floatMetric :=
  {| floatMetric_mutators := [tag_Insert TagName name];
     floatMetric_measure := MeasureLongestRunning |}.

Definition NewUnfinishedWorkSecondsMetric (name : string) : floatMetric :=
  {| floatMetric_mutators := [tag_Insert TagName name];
     floatMetric_measure := MeasureUnfinishedWork |}.

End workqueueMetricsProvider.

(** [init]: what the package hands to client-go.  The two providers are
    empty structs; the client adapters are the two values below. *)
Record Registration : Type := {
  RequestLatency : latencyAdapter;
  RequestResult : resultAdapter
}.

Definition init : Registration :=
  {| RequestLatency := {| latencyAdapter_metric := MeasureRequestLatency |};
     RequestResult := {| resultAdapter_metric := MeasureRequestResult |} |}.

(** *** Views (default_views.go) *)

Definition DefaultPrometheusDistribution : view_Aggregation :=
  view_Distribution [0.005; 0.01; 0.025; 0.05; 0.1; 0.25; 0.5; 1; 2.5; 5; 10]%float.

Definition ViewRequestLatency : view_View :=
  {| Name := "rest_client_request_latency_seconds";
     Description := "Request latency in seconds. Broken down by verb and URL.";
     Measure := FloatMeasure MeasureRequestLatency;
     (* equivalent to prometheus.ExponentialBuckets(0.001, 2, 10) *)
     Aggregation := view_Distribution
       [0.001; 0.002; 0.004; 0.008; 0.016; 0.032; 0.064; 0.128; 0.256; 0.512]%float;
     TagKeys := [TagVerb; TagURL] |}.

Definition ViewRequestResult : view_View :=
  {| Name := "rest_client_requests_total";
     Description := "Number of HTTP requests, partitioned by status code, method, and host.";
     Measure := IntMeasure MeasureRequestResult;
     Aggregation := view_Count;
     TagKeys := [TagCode; TagMethod; TagHost] |}.

Definition ViewListsTotal : view_View :=
  {| Name := "reflector_lists_total";
     Description := "Total number of API lists done by the reflectors";
     Measure := IntMeasure MeasureListsTotal;
     Aggregation := view_Count;
     TagKeys := [TagName] |}.

Definition ViewListsDuration : view_View :=
  {| Name := "reflector_list_duration_seconds";
     Description := "How long an API list takes to return and decode for the reflectors";
     Measure := FloatMeasure MeasureListsDuration;
     Aggregation := DefaultPrometheusDistribution;
     TagKeys := [TagName] |}.

Definition ViewItemsPerList : view_View :=
  {| Name := "reflector_items_per_list";
     Description := "How many items an API list returns to the reflectors";
     Measure := FloatMeasure MeasureItemsPerList;
     Aggregation := view_Distribution [0; 1; 5; 10; 50; 100]%float;
     TagKeys := [TagName] |}.

Definition ViewWatchesTotal : view_View :=
  {| Name := "reflector_watches_total";
     Description := "Total number of API watches done by the reflectors";
     Measure := IntMeasure MeasureWatchesTotal;
     Aggregation := view_Count;
     TagKeys := [TagName] |}.

Definition ViewShortWatchesTotal : view_View :=
  {| Name := "reflector_short_watches_total";
     Description := "Total number of short API watches done by the reflectors";
     Measure := IntMeasure MeasureShortWatchesTotal;
     Aggregation := view_Count;
     TagKeys := [TagName] |}.

Definition ViewWatchesDuration : view_View :=
  {| Name := "reflector_watch_duration_seconds";
     Description := "How long an API watch takes to return and decode for the reflectors";
     Measure := FloatMeasure MeasureWatchDuration;
     Aggregation := DefaultPrometheusDistribution;
     TagKeys := [TagName] |}.

Definition ViewItemsPerWatch : view_View :=
  {| Name := "reflector_items_per_watch";
     Description := "How many items an API watch returns to the reflectors";
     Measure := FloatMeasure MeasureItemsPerWatch;
     Aggregation := view_Distribution [0; 1; 5; 10; 50; 100]%float;
     TagKeys := [TagName] |}.

Definition ViewLastResourceVersion : view_View :=
  {| Name := "reflector_last_resource_version";
     Description := "Last resource version seen for the reflectors";
     Measure := FloatMeasure MeasureLastResourceVersion;
     Aggregation := view_LastValue;
     TagKeys := [TagName] |}.

Definition ViewDepth : view_View :=
  {| Name := "workqueue_depth";
     Description := "Current depth of workqueue";
     Measure := IntMeasure MeasureDepth;
     Aggregation := view_LastValue;
     TagKeys := [TagName] |}.

Definition ViewAdds : view_View :=
  {| Name := "workqueue_adds_total";
     Description := "Total number of adds handled by workqueue";
     Measure := IntMeasure MeasureAdds;
     Aggregation := view_Count;
     TagKeys := [TagName] |}.

Definition ViewLatency : view_View :=
  {| Name := "workqueue_queue_latency_seconds";
     Description := "How long in seconds an item stays in workqueue before being requested.";
     Measure := FloatMeasure MeasureLatency;
     (* equivalent to prometheus.ExponentialBuckets(10e-9, 10, 10) *)
     Aggregation := view_Distribution
       [1e-08; 1e-07; 1e-06; 1e-05; 1e-04; 0.001; 0.01; 0.1; 1; 10]%float;
     TagKeys := [TagName] |}.

Definition ViewWorkDuration : view_View :=
  {| Name := "workqueue_work_duration_seconds";
     Description := "How long in seconds processing an item from workqueue takes.";
     Measure := FloatMeasure MeasureWorkDuration;
     (* equivalent to prometheus.ExponentialBuckets(10e-9, 10, 10) *)
     Aggregation := view_Distribution
       [1e-08; 1e-07; 1e-06; 1e-05; 1e-04; 0.001; 0.01; 0.1; 1; 10]%float;
     TagKeys := [TagName] |}.

Definition ViewRetries : view_View :=
  {| Name := "workqueue_retries_total";
     Description := "Total number of retries handled by workqueue";
     Measure := IntMeasure MeasureRetries;
     Aggregation := view_Count;
     TagKeys := [TagName] |}.

Definition ViewLongestRunning : view_View :=
  {| Name := "workqueue_longest_running_processor_microseconds";
     Description := "How many microseconds has the longest running processor for workqueue been running.";
     Measure := FloatMeasure MeasureLongestRunning;
     Aggregation := view_LastValue;
     TagKeys := [TagName] |}.

Definition ViewUnfinishedWork : view_View :=
  {| Name := "workqueue_unfinished_work_seconds";
     Description :=
       "How many seconds of work has done that is in progress and hasn't been observed " +:+
       "by work_duration. Large values indicate stuck threads. One can deduce the " +:+
       "number of stuck threads by observing the rate at which this increases.";
     Measure := FloatMeasure MeasureUnfinishedWork;
     Aggregation := view_LastValue;
     TagKeys := [TagName] |}.

(** The address of a declared view: one constructor for each [view.View]
    variable of the package, [&V] for the variable [V]. *)
Inductive ViewRef : Type :=
| ref_ViewRequestLatency
| ref_ViewRequestResult
| ref_ViewListsTotal
| ref_ViewListsDuration
| ref_ViewItemsPerList
| ref_ViewWatchesTotal
| ref_ViewShortWatchesTotal
| ref_ViewWatchesDuration
| ref_ViewItemsPerWatch
| ref_ViewLastResourceVersion
| ref_ViewDepth
| ref_ViewAdds
| ref_ViewLatency
| ref_ViewWorkDuration
| ref_ViewRetries
| ref_ViewLongestRunning
| ref_ViewUnfinishedWork.

#[global] Instance ViewRef_eq_dec : EqDecision ViewRef.
Proof. solve_decision. Defined.

Definition deref (r : ViewRef) : view_View :=
  match r with
  | ref_ViewRequestLatency => ViewRequestLatency
  | ref_ViewRequestResult => ViewRequestResult
  | ref_ViewListsTotal => ViewListsTotal
  | ref_ViewListsDuration => ViewListsDuration
  | ref_ViewItemsPerList => ViewItemsPerList
  | ref_ViewWatchesTotal => ViewWatchesTotal
  | ref_ViewShortWatchesTotal => ViewShortWatchesTotal
  | ref_ViewWatchesDuration => ViewWatchesDuration
  | ref_ViewItemsPerWatch => ViewItemsPerWatch
  | ref_ViewLastResourceVersion => ViewLastResourceVersion
  | ref_ViewDepth => ViewDepth
  | ref_ViewAdds => ViewAdds
  | ref_ViewLatency => ViewLatency
  | ref_ViewWorkDuration => ViewWorkDuration
  | ref_ViewRetries => ViewRetries
  | ref_ViewLongestRunning => ViewLongestRunning
  | ref_ViewUnfinishedWork => ViewUnfinishedWork
  end.

(** [DefaultViews]: the slice handed to [view.Register]. *)
Definition DefaultViews : list ViewRef :=
  [ ref_ViewRequestLatency;
    ref_ViewRequestResult;
    ref_ViewListsTotal;
    ref_ViewListsDuration;
    ref_ViewItemsPerList;
    ref_ViewWatchesTotal;
    ref_ViewShortWatchesTotal;
    ref_ViewWatchesDuration;
    ref_ViewItemsPerWatch;
    ref_ViewLastResourceVersion;
    ref_ViewDepth;
    ref_ViewAdds;
    ref_ViewLatency;
    ref_ViewWorkDuration;
    ref_ViewRetries;
    ref_ViewLongestRunning;
    ref_ViewUnfinishedWork ].

End metrics.

(** ** Package pkg/webhook/metrics *)

Module webhook_metrics.

(** *** Measures and tag keys (metrics.go) *)

Definition MeasureTotalRequests : stats_Int64Measure :=
  stats_Int64
    "sigs.kubernetes.io/controller-runtime/measures/webhook_requests_total"
    "Total number of admission requests"
    stats_UnitNone.

Definition MeasureRequestLatency : stats_Float64Measure :=
  stats_Float64
    "sigs.kubernetes.io/controller-runtime/measures/webhook_latency_seconds"
    "Latency of processing admission requests"
    "s".

Definition Measures : list stats_Measure :=
  [ IntMeasure MeasureTotalRequests; FloatMeasure MeasureRequestLatency ].

Definition mustNewTagKey (k : string) : Go tag_Key :=
  let '(tagKey, err) := tag_NewKey k in
  match err with
  | Some e => Panic e
  | None => Return tagKey
  end.

Definition TagKeyNames : list string := ["webhook"; "succeeded"].

Definition initTagKeys : Go (list tag_Key) := mapM mustNewTagKey TagKeyNames.

Definition TagWebhook : tag_Key := {| tag_Key_Name := "webhook" |}.
Definition TagSucceeded : tag_Key := {| tag_Key_Name := "succeeded" |}.

(** Modelled from the spec: the code that records against the two webhook
    measures (the admission request handler) is missing from the sources
    of this package, and the specification does not describe it.  The tag
    keys it populates are the ones the documentation of the two measures
    names: the webhook and succeeded tags for [MeasureTotalRequests] ("It
    has two tags"), the webhook tag for [MeasureRequestLatency] ("It has
    one tag"). *)
Definition RecordedTagKeys (m : stats_Measure) : list tag_Key :=
  if decide (m = IntMeasure MeasureTotalRequests) then [TagWebhook; TagSucceeded]
  else if decide (m = FloatMeasure MeasureRequestLatency) then [TagWebhook]
  else [].

(** *** Views (views.go) *)

Definition DefaultPrometheusDistribution : view_Aggregation :=
  view_Distribution [0.005; 0.01; 0.025; 0.05; 0.1; 0.25; 0.5; 1; 2.5; 5; 10]%float.

Definition ViewTotalRequests : view_View :=
  {| Name := "controller_runtime_webhook_requests_total";
     Description := "Total number of admission requests";
     Measure := IntMeasure MeasureTotalRequests;
     Aggregation := view_Count;
     TagKeys := [TagWebhook; TagSucceeded] |}.

Definition ViewRequestLatency : view_View :=
  {| Name := "controller_runtime_webhook_latency_seconds";
     Description := "Latency of processing admission requests";
     Measure := FloatMeasure MeasureRequestLatency;
     Aggregation := DefaultPrometheusDistribution;
     TagKeys := [TagWebhook] |}.

Inductive ViewRef : Type :=
| ref_ViewTotalRequests
| ref_ViewRequestLatency.

#[global] Instance ViewRef_eq_dec : EqDecision ViewRef.
Proof. solve_decision. Defined.

Definition deref (r : ViewRef) : view_View :=
  match r with
  | ref_ViewTotalRequests => ViewTotalRequests
  | ref_ViewRequestLatency => ViewRequestLatency
  end.

Definition DefaultViews : list ViewRef :=
  [ ref_ViewTotalRequests;
    ref_ViewRequestLatency ].

End webhook_metrics.

(** ** Calls on the adapters

    The vocabulary used to speak about every adapter the packages build and
    every sequence of calls client-go may make on one. *)

Import metrics.

(** What a factory method returns: one of the two metric structs. *)
Inductive Sink : Type :=
| IntSink (m : intMetric)
| FloatSink (m : floatMetric).

Inductive ReflectorMethod : Type :=
| R_NewListsMetric
| R_NewListDurationMetric
| R_NewItemsInListMetric
| R_NewWatchesMetric
| R_NewShortWatchesMetric
| R_NewWatchDurationMetric
| R_NewItemsInWatchMetric
| R_NewLastResourceVersionMetric.

Inductive WorkqueueMethod : Type :=
| W_NewDepthMetric
| W_NewAddsMetric
| W_NewLatencyMetric
| W_NewWorkDurationMetric
| W_NewRetriesMetric
| W_NewLongestRunningProcessorMicrosecondsMetric
| W_NewUnfinishedWorkSecondsMetric.

Inductive Factory : Type :=
| Reflector (f : ReflectorMethod)
| Workqueue (f : WorkqueueMethod).

Definition construct (f : Factory) (name : string) : Sink :=
  match f with
  | Reflector R_NewListsMetric =>
      IntSink (reflectorMetricsProvider.NewListsMetric name)
  | Reflector R_NewListDurationMetric =>
      FloatSink (reflectorMetricsProvider.NewListDurationMetric name)
  | Reflector R_NewItemsInListMetric =>
      FloatSink (reflectorMetricsProvider.NewItemsInListMetric name)
  | Reflector R_NewWatchesMetric =>
      IntSink (reflectorMetricsProvider.NewWatchesMetric name)
  | Reflector R_NewShortWatchesMetric =>
      IntSink (reflectorMetricsProvider.NewShortWatchesMetric name)
  | Reflector R_NewWatchDurationMetric =>
      FloatSink (reflectorMetricsProvider.NewWatchDurationMetric name)
  | Reflector R_NewItemsInWatchMetric =>
      FloatSink (reflectorMetricsProvider.NewItemsInWatchMetric name)
  | Reflector R_NewLastResourceVersionMetric =>
      FloatSink (reflectorMetricsProvider.NewLastResourceVersionMetric name)
  | Workqueue W_NewDepthMetric =>
      IntSink (workqueueMetricsProvider.NewDepthMetric name)
  | Workqueue W_NewAddsMetric =>
      IntSink (workqueueMetricsProvider.NewAddsMetric name)
  | Workqueue W_NewLatencyMetric =>
      FloatSink (workqueueMetricsProvider.NewLatencyMetric name)
  | Workqueue W_NewWorkDurationMetric =>
      FloatSink (workqueueMetricsProvider.NewWorkDurationMetric name)
  | Workqueue W_NewRetriesMetric =>
      IntSink (workqueueMetricsProvider.NewRetriesMetric name)
  | Workqueue W_NewLongestRunningProcessorMicrosecondsMetric =>
      FloatSink (workqueueMetricsProvider.NewLongestRunningProcessorMicrosecondsMetric name)
  | Workqueue W_NewUnfinishedWorkSecondsMetric =>
      FloatSink (workqueueMetricsProvider.NewUnfinishedWorkSecondsMetric name)
  end.

Definition factories : list Factory :=
  map Reflector
    [ R_NewListsMetric; R_NewListDurationMetric; R_NewItemsInListMetric;
      R_NewWatchesMetric; R_NewShortWatchesMetric; R_NewWatchDurationMetric;
      R_NewItemsInWatchMetric; R_NewLastResourceVersionMetric ]
  ++ map Workqueue
    [ W_NewDepthMetric; W_NewAddsMetric; W_NewLatencyMetric; W_NewWorkDurationMetric;
      W_NewRetriesMetric; W_NewLongestRunningProcessorMicrosecondsMetric;
      W_NewUnfinishedWorkSecondsMetric ].

(** A method call on a sink.  [intMetric] has the methods [Inc] and [Dec],
    [floatMetric] has [Observe] and [Set]; any other combination does not
    compile. *)
Inductive MetricCall : Type :=
| CallInc
| CallDec
| CallObserve (v : float64)
| CallSet (v : float64).

Definition invoke (s : Sink) (c : MetricCall) : option (Go unit) :=
  match s, c with
  | IntSink m, CallInc => Some (intMetric_Inc m)
  | IntSink m, CallDec => Some (intMetric_Dec m)
  | FloatSink m, CallObserve v => Some (floatMetric_Observe m v)
  | FloatSink m, CallSet v => Some (floatMetric_Set m v)
  | _, _ => None
  end.

(** Sequential composition of Go statements. *)
Definition seq (p q : Go unit) : Go unit := _ ← p; q.

Fixpoint invoke_all (s : Sink) (cs : list MetricCall) : option (Go unit) :=
  match cs with
  | [] => Some (Return tt)
  | c :: cs =>
      match invoke s c, invoke_all s cs with
      | Some p, Some q => Some (seq p q)
      | _, _ => None
      end
  end.

(** Calls on a counter: the whole method set of [intMetric]. *)
Inductive CounterCall : Type :=
| DoInc
| DoDec.

Definition intMetric_call (m : intMetric) (c : CounterCall) : Go unit :=
  match c with
  | DoInc => intMetric_Inc m
  | DoDec => intMetric_Dec m
  end.

Fixpoint intMetric_calls (m : intMetric) (cs : list CounterCall) : Go unit :=
  match cs with
  | [] => Return tt
  | c :: cs => seq (intMetric_call m c) (intMetric_calls m cs)
  end.

Definition is_inc (c : CounterCall) : bool :=
  match c with DoInc => true | DoDec => false end.

Definition is_dec (c : CounterCall) : bool :=
  match c with DoInc => false | DoDec => true end.

(** Every recording operation of the package, with its arguments. *)
Inductive RecordingOp : Type :=
| OpLatencyObserve (a : latencyAdapter) (verb : string) (u : url_URL)
                   (latency : time_Duration)
| OpResultIncrement (a : resultAdapter) (code method host : string)
| OpInc (m : intMetric)
| OpDec (m : intMetric)
| OpObserve (m : floatMetric) (v : float64)
| OpSet (m : floatMetric) (v : float64).

Definition perform (op : RecordingOp) : Go unit :=
  match op with
  | OpLatencyObserve a verb u latency => latencyAdapter_Observe a verb u latency
  | OpResultIncrement a code method host => resultAdapter_Increment a code method host
  | OpInc m => intMetric_Inc m
  | OpDec m => intMetric_Dec m
  | OpObserve m v => floatMetric_Observe m v
  | OpSet m v => floatMetric_Set m v
  end.

(** A call client-go can make on what [init] registered: on the two client
    adapters, or on a sink obtained from a provider. *)
Inductive SystemCall : Type :=
| ClientObserve (verb : string) (u : url_URL) (latency : time_Duration)
| ClientIncrement (code method host : string)
| MetricCallOn (f : Factory) (name : string) (c : MetricCall).

Definition system_call (sc : SystemCall) : option (Go unit) :=
  match sc with
  | ClientObserve verb u latency =>
      Some (latencyAdapter_Observe (RequestLatency init) verb u latency)
  | ClientIncrement code method host =>
      Some (resultAdapter_Increment (RequestResult init) code method host)
  | MetricCallOn f name c => invoke (construct f name) c
  end.

(** A runtime that signals no error: the one [rt] with every error it
    answers replaced by [nil]. *)
Definition silence (c : Call) : Reply c -> Reply c :=
  match c with
  | CallTagNew _ _ => fun r => (fst r, None)
  | CallRecord _ _ => fun r => r
  | CallRecordWithTags _ _ _ => fun _ => None
  end.

Definition silent (rt : Runtime) : Runtime :=
  {| World := World rt;
     reply := fun c w => let '(r, w') := reply rt c w in (silence c r, w') |}.

Definition Sink_mutators (s : Sink) : list tag_Mutator :=
  match s with
  | IntSink m => intMetric_mutators m
  | FloatSink m => floatMetric_mutators m
  end.

Definition Sink_measure (s : Sink) : stats_Measure :=
  match s with
  | IntSink m => IntMeasure (intMetric_measure m)
  | FloatSink m => FloatMeasure (floatMetric_measure m)
  end.

(** The measure a factory method binds its sink to. *)
Definition Factory_measure (f : Factory) : stats_Measure :=
  Sink_measure (construct f "").

(** The value a counter call records. *)
Definition delta (c : CounterCall) : Z :=
  match c with
  | DoInc => 1
  | DoDec => -1
  end.

Definition Zsum (l : list Z) : Z := foldr Z.add 0%Z l.

Definition count_calls (f : CounterCall -> bool) (cs : list CounterCall) : Z :=
  Z.of_nat (length (List.filter f cs)).

(** ** A test double of the export runtime

    It keeps every measurement it is handed, with the tags of the context
    it was recorded under.  Like OpenCensus it refuses a tag value longer
    than 255 bytes or holding a non-printable character: [tag.New] then
    answers the context it was given and an error, and
    [stats.RecordWithTags] answers an error and keeps nothing.  [tag.Insert]
    leaves a key that is already present alone. *)
Record Exported : Type := {
  exported_measurement : stats_Measurement;
  exported_tags : list (tag_Key * string)
}.

Definition errInvalidValue : error :=
  "invalid value: only ASCII characters accepted; max length must be 255 characters".

Definition checkValue (v : string) : bool :=
  (String.length v <=? 255)%nat && forallb printable (list_ascii_of_string v).

Definition context_tags (ctx : Context) : list (tag_Key * string) :=
  match ctx with
  | context_Background => []
  | context_WithTags _ tags => tags
  end.

Definition has_key (k : tag_Key) (tags : list (tag_Key * string)) : bool :=
  existsb (fun kv => bool_decide (fst kv = k)) tags.

Fixpoint apply_mutators (mutators : list tag_Mutator) (tags : list (tag_Key * string))
  : option (list (tag_Key * string)) :=
  match mutators with
  | [] => Some tags
  | tag_Insert k v :: rest =>
      if checkValue v
      then apply_mutators rest (if has_key k tags then tags else tags ++ [(k, v)])
      else None
  end.

Definition export (ctx : Context) (ms : list stats_Measurement) : list Exported :=
  map (fun m => {| exported_measurement := m; exported_tags := context_tags ctx |}) ms.

Definition double_reply (c : Call) (log : list Exported) : Reply c * list Exported :=
  match c return Reply c * list Exported with
  | CallTagNew ctx mutators =>
      match apply_mutators mutators (context_tags ctx) with
      | Some tags => ((context_WithTags ctx tags, None), log)
      | None => ((ctx, Some errInvalidValue), log)
      end
  | CallRecord ctx ms => (tt, log ++ export ctx ms)
  | CallRecordWithTags ctx mutators ms =>
      match apply_mutators mutators (context_tags ctx) with
      | Some tags => (None, log ++ export (context_WithTags ctx tags) ms)
      | None => (Some errInvalidValue, log)
      end
  end.

Definition test_double : Runtime :=
  {| World := list Exported; reply := double_reply |}.

(** A runtime that fails every call that can fail, and keeps count of the
    calls it received. *)
Definition failing_reply (c : Call) (n : nat) : Reply c * nat :=
  match c return Reply c * nat with
  | CallTagNew ctx _ => ((ctx, Some "tag.New failed"), S n)
  | CallRecord _ _ => (tt, S n)
  | CallRecordWithTags _ _ _ => (Some "stats.RecordWithTags failed", S n)
  end.

Definition failing_runtime : Runtime :=
  {| World := nat; reply := failing_reply |}.

(** The measure a call on the registered adapters records against, and the
    tag keys it inserts (see [system_call_trace]). *)
Definition SystemCall_measure (sc : SystemCall) : stats_Measure :=
  match sc with
  | ClientObserve _ _ _ => FloatMeasure (latencyAdapter_metric (RequestLatency init))
  | ClientIncrement _ _ _ => IntMeasure (resultAdapter_metric (RequestResult init))
  | MetricCallOn f _ _ => Factory_measure f
  end.

Definition SystemCall_keys (sc : SystemCall) : list tag_Key :=
  match sc with
  | ClientObserve _ _ _ => [TagVerb; TagURL]
  | ClientIncrement _ _ _ => [TagCode; TagMethod; TagHost]
  | MetricCallOn _ _ _ => [TagName]
  end.

(** ** Sequences of operations and checks on the catalog *)

(** A body that performs the operations one after the other. *)
Fixpoint perform_all (ops : list RecordingOp) : Go unit :=
  match ops with
  | [] => Return tt
  | op :: ops => seq (perform op) (perform_all ops)
  end.

(** The measurement an operation builds with the [M] method of its
    measure. *)
Definition RecordingOp_measurement (op : RecordingOp) : stats_Measurement :=
  match op with
  | OpLatencyObserve a _ _ latency =>
      Float64Measure_M (latencyAdapter_metric a) (time_Duration_Seconds latency)
  | OpResultIncrement a _ _ _ => Int64Measure_M (resultAdapter_metric a) 1
  | OpInc m => Int64Measure_M (intMetric_measure m) 1
  | OpDec m => Int64Measure_M (intMetric_measure m) (-1)
  | OpObserve m v => Float64Measure_M (floatMetric_measure m) v
  | OpSet m v => Float64Measure_M (floatMetric_measure m) v
  end.

(** The mutators an operation passes on: built from the arguments of the
    call for the client adapters, the ones stored in the struct for the
    metric structs. *)
Definition RecordingOp_mutators (op : RecordingOp) : list tag_Mutator :=
  match op with
  | OpLatencyObserve _ verb u _ =>
      [tag_Insert TagVerb verb; tag_Insert TagURL (url_String u)]
  | OpResultIncrement _ code method host =>
      [tag_Insert TagCode code; tag_Insert TagMethod method; tag_Insert TagHost host]
  | OpInc m => intMetric_mutators m
  | OpDec m => intMetric_mutators m
  | OpObserve m _ => floatMetric_mutators m
  | OpSet m _ => floatMetric_mutators m
  end.

(** The operations of the metric structs, as opposed to the two client
    adapters. *)
Definition on_metric_struct (op : RecordingOp) : bool :=
  match op with
  | OpLatencyObserve _ _ _ _ => false
  | OpResultIncrement _ _ _ _ => false
  | _ => true
  end.

(** How many calls into the runtime an operation makes. *)
Definition RecordingOp_calls (op : RecordingOp) : nat :=
  if on_metric_struct op then 1 else 2.

(** The prefix of every measure name. *)
Definition measures_prefix : string :=
  "sigs.kubernetes.io/controller-runtime/measures/".

(** A measure name without its first [String.length measures_prefix]
    characters. *)
Definition short_name (m : stats_Measure) : string :=
  String.substring (String.length measures_prefix)
    (String.length (Measure_Name m) - String.length measures_prefix) (Measure_Name m).

Definition Measure_is_float (m : stats_Measure) : bool :=
  match m with
  | IntMeasure _ => false
  | FloatMeasure _ => true
  end.

(** The bucket boundaries of an aggregation (none unless it is a
    distribution). *)
Definition Aggregation_bounds (a : view_Aggregation) : list float64 :=
  match a with
  | view_Distribution bounds => bounds
  | _ => []
  end.

(** Strictly increasing for [float64]'s [<], which is false on NaN. *)
Fixpoint ascending (bounds : list float64) : bool :=
  match bounds with
  | a :: (b :: _) as rest => PrimFloat.ltb a b && ascending rest
  | _ => true
  end.

(** The views of pkg/metrics bound to a measure. *)
Definition views_of (m : stats_Measure) : list metrics.ViewRef :=
  List.filter (fun r => bool_decide (Measure (metrics.deref r) = m)) metrics.DefaultViews.

(** The measures the registered adapters record against: the two client
    adapters of [init], then the sinks of the factory methods. *)
Definition recorder_measures : list stats_Measure :=
  FloatMeasure (latencyAdapter_metric (RequestLatency init))
  :: IntMeasure (resultAdapter_metric (RequestResult init))
  :: map Factory_measure factories.

(** The integer a [float64] stands for, when it stands for one: a zero, or
    a finite [m * 2^e] that is whole.  [Prim2SF] is the standard library's
    decoding of a binary64 into sign, mantissa and exponent. *)
Definition float64_to_Z (f : float64) : option Z :=
  match Prim2SF f with
  | S754_zero _ => Some 0%Z
  | S754_finite s m e =>
      let n := if s then Zneg m else Zpos m in
      match e with
      | Z0 => Some n
      | Zpos _ => Some (n * 2 ^ e)%Z
      | Zneg k =>
          if (Zpos m mod 2 ^ Zpos k =? 0)%Z then Some (n / 2 ^ Zpos k)%Z else None
      end
  | _ => None
  end.

(** The calls one operation makes against [rt] in state [w]: a metric
    struct makes one call; a client adapter asks [tag.New] for a context
    and records under the context it is answered. *)
Definition RecordingOp_trace (rt : Runtime) (w : World rt) (op : RecordingOp)
  : list Call :=
  if on_metric_struct op
  then [CallRecordWithTags context_Background (RecordingOp_mutators op)
          [RecordingOp_measurement op]]
  else
    let new := CallTagNew context_Background (RecordingOp_mutators op) in
    [new; CallRecord (fst (fst (reply rt new w))) [RecordingOp_measurement op]].

(** The state of the runtime once it has answered the calls [cs]. *)
Definition answer_all (rt : Runtime) (w : World rt) (cs : list Call) : World rt :=
  fold_left (fun w c => snd (reply rt c w)) cs w.

(** The calls of a sequence of operations: those of each operation in
    turn, each against the state the calls before it left. *)
Fixpoint expected_trace (rt : Runtime) (ops : list RecordingOp) (w : World rt)
  : list Call :=
  match ops with
  | [] => []
  | op :: ops =>
      RecordingOp_trace rt w op
      ++ expected_trace rt ops (answer_all rt w (RecordingOp_trace rt w op))
  end.

(** * Properties *)

(** Decidable facts about the declared catalog are settled by evaluation. *)
Ltac by_evaluation := apply (bool_decide_unpack _); vm_compute; exact I.

(** ** The catalog, without a runtime *)

Lemma construct_mutators (f : Factory) (n : string) :
  Sink_mutators (construct f n) = [tag_Insert TagName n].
Proof. by destruct f as [[] | []]. Qed.

Lemma construct_measure (f : Factory) (n : string) :
  Sink_measure (construct f n) = Factory_measure f.
Proof. by destruct f as [[] | []]. Qed.

Lemma Factory_in_factories (f : Factory) : f ∈ factories.
Proof.
  destruct f as [[] | []]; unfold factories; cbn;
    repeat (first [apply list_elem_of_here | apply list_elem_of_further]).
Qed.

(** Every view is bound to a declared measure, and so is every sink. *)
Lemma bound_to_declared_measures :
  (forall r : metrics.ViewRef, Measure (metrics.deref r) ∈ metrics.Measures)
  /\ (forall r : webhook_metrics.ViewRef,
        Measure (webhook_metrics.deref r) ∈ webhook_metrics.Measures)
  /\ (forall f : Factory, Factory_measure f ∈ metrics.Measures).
Proof.
  split_and!.
  - intros []; by_evaluation.
  - intros []; by_evaluation.
  - intros [[] | []]; by_evaluation.
Qed.

(** Whenever a view of pkg/metrics is bound to the measure of one of the
    registered adapters, the view's keys are keys that adapter inserts. *)
Lemma view_keys_of_recorder (r : metrics.ViewRef) :
  (Measure (metrics.deref r) = FloatMeasure metrics.MeasureRequestLatency ->
     TagKeys (metrics.deref r) ⊆ [TagVerb; TagURL])
  /\ (Measure (metrics.deref r) = IntMeasure MeasureRequestResult ->
     TagKeys (metrics.deref r) ⊆ [TagCode; TagMethod; TagHost])
  /\ Forall (fun f => Measure (metrics.deref r) = Factory_measure f ->
               TagKeys (metrics.deref r) ⊆ [TagName]) factories.
Proof.
  destruct r; split_and!; try (intros _; done); try (intros [=]);
    repeat (constructor; try (intros _; done); try (intros [=])).
Qed.

Lemma Zsum_delta (cs : list CounterCall) :
  Zsum (map delta cs) = (count_calls is_inc cs - count_calls is_dec cs)%Z.
Proof.
  unfold count_calls, Zsum.
  induction cs as [| [] cs IH]; [done | |];
    cbn [map foldr List.filter is_inc is_dec delta length];
    rewrite ?Nat2Z.inj_succ; lia.
Qed.

(** ** Tag keys *)

Lemma checkKeyName_spec (name : string) :
  checkKeyName name = true <->
  (1 <= String.length name <= 255)%nat
  /\ Forall (fun b => (32 <= nat_of_ascii b <= 126)%nat) (list_ascii_of_string name).
Proof.
  unfold checkKeyName. rewrite !andb_true_iff, !Nat.leb_le.
  assert (Hall : forall l, forallb printable l = true <->
            Forall (fun b => (32 <= nat_of_ascii b <= 126)%nat) l).
  { induction l as [| b l IH]; cbn.
    - split; [constructor | done].
    - unfold printable at 1. rewrite !andb_true_iff, !Nat.leb_le, IH.
      split.
      + intros [[? ?] ?]. by constructor.
      + intros H. inversion_clear H. tauto. }
  rewrite Hall. tauto.
Qed.

Lemma mustNewTagKey_valid (k : string) :
  checkKeyName k = true ->
  metrics.mustNewTagKey k = Return {| tag_Key_Name := k |}
  /\ webhook_metrics.mustNewTagKey k = Return {| tag_Key_Name := k |}.
Proof.
  intros H. unfold metrics.mustNewTagKey, webhook_metrics.mustNewTagKey, tag_NewKey.
  by rewrite H.
Qed.

(** The panic branch is there: an invalid name reaches it. *)
Lemma mustNewTagKey_invalid (k : string) :
  checkKeyName k = false ->
  metrics.mustNewTagKey k = Panic errInvalidKeyName
  /\ webhook_metrics.mustNewTagKey k = Panic errInvalidKeyName.
Proof.
  intros H. unfold metrics.mustNewTagKey, webhook_metrics.mustNewTagKey, tag_NewKey.
  by rewrite H.
Qed.

Example mustNewTagKey_empty : metrics.mustNewTagKey "" = Panic errInvalidKeyName.
Proof. reflexivity. Qed.

(** C9: the eight tag-key names the two packages declare are 1 to 255
    characters long and printable US-ASCII, so [mustNewTagKey] returns the
    key for each of them and the initialisation of the tag-key variables of
    both packages returns without a panic. *)
Theorem C9_declared_tag_keys_valid :
  metrics.TagKeyNames ++ webhook_metrics.TagKeyNames
    = ["verb"; "url"; "code"; "method"; "host"; "name"; "webhook"; "succeeded"]
  /\ Forall (fun name =>
       (1 <= String.length name <= 255)%nat
       /\ Forall (fun b => (32 <= nat_of_ascii b <= 126)%nat) (list_ascii_of_string name)
       /\ metrics.mustNewTagKey name = Return {| tag_Key_Name := name |}
       /\ webhook_metrics.mustNewTagKey name = Return {| tag_Key_Name := name |})
     (metrics.TagKeyNames ++ webhook_metrics.TagKeyNames)
  /\ metrics.initTagKeys
     = Return [TagVerb; TagURL; TagCode; TagMethod; TagHost; TagName]
  /\ webhook_metrics.initTagKeys
     = Return [webhook_metrics.TagWebhook; webhook_metrics.TagSucceeded].
Proof.
  split_and!; [done | | done | done].
  assert (Hall : Forall (fun name => checkKeyName name = true)
            (metrics.TagKeyNames ++ webhook_metrics.TagKeyNames))
    by (repeat constructor).
  eapply Forall_impl; [exact Hall |].
  intros name H. destruct (proj1 (checkKeyName_spec name) H) as [? ?].
  destruct (mustNewTagKey_valid name H). done.
Qed.

(** ** Measures and views *)

(** C7: across the two packages no two declared measures have the same
    name and no two declared views have the same name. *)
Theorem C7_names_unique :
  NoDup (map Measure_Name (metrics.Measures ++ webhook_metrics.Measures))
  /\ NoDup (map Name (map metrics.deref metrics.DefaultViews
                      ++ map webhook_metrics.deref webhook_metrics.DefaultViews))
  /\ length (metrics.Measures ++ webhook_metrics.Measures) = 19
  /\ length (map metrics.deref metrics.DefaultViews
             ++ map webhook_metrics.deref webhook_metrics.DefaultViews) = 19.
Proof.
  split_and!; [| | done | done].
  - by_evaluation.
  - by_evaluation.
Qed.

(** C8: [DefaultViews] is a fixed list that holds the address of every
    declared view exactly once, in declaration order: 17 views in
    pkg/metrics, 2 in pkg/webhook/metrics. *)
Theorem C8_DefaultViews_complete :
  (length metrics.DefaultViews = 17
   /\ NoDup metrics.DefaultViews
   /\ (forall r : metrics.ViewRef, r ∈ metrics.DefaultViews)
   /\ map metrics.deref metrics.DefaultViews
      = [ metrics.ViewRequestLatency; ViewRequestResult; ViewListsTotal;
          ViewListsDuration; ViewItemsPerList; ViewWatchesTotal;
          ViewShortWatchesTotal; ViewWatchesDuration; ViewItemsPerWatch;
          ViewLastResourceVersion; ViewDepth; ViewAdds; ViewLatency;
          ViewWorkDuration; ViewRetries; ViewLongestRunning; ViewUnfinishedWork ])
  /\ (length webhook_metrics.DefaultViews = 2
      /\ NoDup webhook_metrics.DefaultViews
      /\ (forall r : webhook_metrics.ViewRef, r ∈ webhook_metrics.DefaultViews)
      /\ map webhook_metrics.deref webhook_metrics.DefaultViews
         = [ webhook_metrics.ViewTotalRequests; webhook_metrics.ViewRequestLatency ]).
Proof.
  split; split_and!; try done.
  - by_evaluation.
  - intros []; by_evaluation.
  - by_evaluation.
  - intros []; by_evaluation.
Qed.

(** ** Durations in seconds

    What [time_Duration_Seconds] computes, read off the IEEE 754
    specification of the primitive operations: an integer below [2^53]
    converts to the float of that value, so whole seconds come out exactly;
    a duration of less than a second is the binary64 quotient of its
    nanoseconds by [10^9], which does not underflow. *)

Section Seconds.

Local Open Scope Z_scope.

(** The number of binary digits of a positive, as the float specification
    counts them, is [Pos.size]. *)
Lemma digits2_pos_size p : digits2_pos p = Pos.size p.
Proof. induction p; simpl; congruence. Qed.

Lemma digits_le (p : positive) (k : Z) :
  0 <= k -> Zpos p < 2 ^ k -> Zpos (digits2_pos p) <= k.
Proof.
  intros Hk H. rewrite digits2_pos_size.
  pose proof (Pos.size_le p) as Hle.
  assert (H2 : 2 ^ Zpos (Pos.size p) <= 2 * Zpos p).
  { change 2 with (Zpos 2) at 1. rewrite <- Pos2Z.inj_pow. lia. }
  destruct (Z_le_gt_dec (Zpos (Pos.size p)) k) as [| Hgt]; [assumption |].
  assert (2 ^ (k + 1) <= 2 ^ Zpos (Pos.size p)) by (apply Z.pow_le_mono_r; lia).
  rewrite Z.pow_add_r, Z.pow_1_r in * by lia. lia.
Qed.

Lemma digits_lt (p : positive) : Zpos p < 2 ^ Zpos (digits2_pos p).
Proof.
  rewrite digits2_pos_size. pose proof (Pos.size_gt p) as H.
  change 2 with (Zpos 2). rewrite <- Pos2Z.inj_pow. lia.
Qed.

Lemma digits_ge (p : positive) : 2 ^ Zpos (digits2_pos p) <= 2 * Zpos p.
Proof.
  rewrite digits2_pos_size. pose proof (Pos.size_le p) as H.
  change 2 with (Zpos 2) at 1. rewrite <- Pos2Z.inj_pow. lia.
Qed.

Lemma iter_xO_digits (k p : positive) :
  digits2_pos (Pos.iter xO p k) = (digits2_pos p + k)%positive.
Proof.
  induction k as [| k IH] using Pos.peano_ind.
  - simpl. lia.
  - rewrite Pos.iter_succ. simpl. rewrite IH. lia.
Qed.

Lemma iter_xO_value (k p : positive) :
  Zpos (Pos.iter xO p k) = Zpos p * 2 ^ Zpos k.
Proof.
  induction k as [| k IH] using Pos.peano_ind.
  - simpl. lia.
  - rewrite Pos.iter_succ, Pos2Z.inj_succ, Z.pow_succ_r by lia.
    rewrite Pos2Z.inj_xO, IH. lia.
Qed.

(** *** Conversion of integers *)

(** A mantissa of 53 digits with an exponent in range needs no shift and
    no rounding. *)
Lemma shr_fexp_canonical (m : positive) (e : Z) :
  digits2_pos m = 53%positive -> -1074 <= e ->
  shr_fexp prec emax (Zpos m) e loc_Exact
  = ({| shr_m := Zpos m; shr_r := false; shr_s := false |}, e).
Proof.
  intros Hd He. unfold shr_fexp, Zdigits2. rewrite Hd.
  replace (fexp prec emax (53 + e) - e) with 0
    by (unfold fexp, SpecFloat.emin, prec, emax; lia).
  reflexivity.
Qed.

Lemma binary_round_aux_canonical (s : bool) (m : positive) (e : Z) :
  digits2_pos m = 53%positive -> -1074 <= e <= 971 ->
  binary_round_aux prec emax s (Zpos m) e loc_Exact = S754_finite s m e.
Proof.
  intros Hd He. unfold binary_round_aux.
  rewrite shr_fexp_canonical by (assumption || lia).
  cbn [shr_m loc_of_shr_record round_nearest_even].
  rewrite shr_fexp_canonical by (assumption || lia).
  cbn [shr_m].
  replace (e <=? emax - prec) with true; [reflexivity |].
  symmetry. apply Z.leb_le. unfold emax, prec. lia.
Qed.

(** An integer below [2^53] converts exactly: to a mantissa of 53 digits
    and the exponent that gives it its value back. *)
Lemma binary_normalize_exact (p : positive) :
  Zpos p < 2 ^ 53 ->
  exists (m : positive) (e : Z),
    binary_normalize prec emax (Zpos p) 0 false = S754_finite false m e
    /\ digits2_pos m = 53%positive
    /\ -52 <= e <= 0 /\ Zpos m = Zpos p * 2 ^ (- e).
Proof.
  intros Hp. pose proof (digits_le p 53 ltac:(lia) Hp) as Hd.
  assert (Hd1 : 1 <= Zpos (digits2_pos p)) by lia.
  unfold binary_normalize, binary_round.
  assert (Hfexp : fexp prec emax (Zpos (digits2_pos p) + 0) = Zpos (digits2_pos p) - 53).
  { unfold fexp, SpecFloat.emin, prec, emax. lia. }
  rewrite Hfexp. unfold shl_align.
  destruct (Zpos (digits2_pos p) - 53 - 0) as [| k | k] eqn:Hk; [| lia |].
  - exists p, 0.
    rewrite binary_round_aux_canonical by lia.
    split; [reflexivity | split; [lia | split; lia]].
  - exists (Pos.iter xO p k), (Zpos (digits2_pos p) - 53).
    assert (Hd53 : digits2_pos (Pos.iter xO p k) = 53%positive)
      by (rewrite iter_xO_digits; lia).
    rewrite binary_round_aux_canonical; [| assumption | lia].
    split; [reflexivity |]. split; [assumption |]. split; [lia |].
    rewrite iter_xO_value. f_equal. f_equal. lia.
Qed.

Lemma of_uint63_exact (n : Z) :
  0 < n < 2 ^ 53 ->
  exists (m : positive) (e : Z),
    Prim2SF (of_uint63 (Uint63.of_Z n)) = S754_finite false m e
    /\ digits2_pos m = 53%positive
    /\ -52 <= e <= 0 /\ Zpos m = n * 2 ^ (- e).
Proof.
  intros Hn. rewrite of_uint63_spec, Uint63.of_Z_spec.
  rewrite Z.mod_small by (change wB with (2 ^ 63); split; [lia |];
    apply Z.lt_trans with (2 ^ 53); [lia | reflexivity]).
  destruct n as [| p | p]; [lia | | lia].
  apply binary_normalize_exact. lia.
Qed.

(** [float64(n)] for [|n| < 2^53]: a positive zero, or a finite float
    with the sign of [n] and the value of [n]. *)
Lemma float64_of_int64_spec (n : Z) :
  - 2 ^ 53 < n < 2 ^ 53 ->
  (n = 0 /\ Prim2SF (float64_of_int64 n) = S754_zero false)
  \/ exists (m : positive) (e : Z),
       Prim2SF (float64_of_int64 n) = S754_finite (n <? 0) m e
       /\ digits2_pos m = 53%positive
       /\ -52 <= e <= 0 /\ Zpos m = Z.abs n * 2 ^ (- e).
Proof.
  intros Hn. unfold float64_of_int64.
  destruct (Z.leb_spec 0 n) as [Hpos | Hneg].
  - destruct (Z.eq_dec n 0) as [-> | Hnz]; [left; split; reflexivity |].
    right. destruct (of_uint63_exact n) as (m & e & H1 & H2 & H3 & H4); [lia |].
    exists m, e. rewrite H1.
    replace (n <? 0) with false by (symmetry; apply Z.ltb_ge; lia).
    rewrite Z.abs_eq by lia. auto.
  - right. destruct (of_uint63_exact (- n)) as (m & e & H1 & H2 & H3 & H4); [lia |].
    exists m, e. rewrite FloatAxioms.opp_spec, H1. cbn [SFopp negb].
    replace (n <? 0) with true by (symmetry; apply Z.ltb_lt; lia).
    rewrite Z.abs_neq by lia. auto.
Qed.

Lemma float64_to_Z_of_int64 (n : Z) :
  - 2 ^ 53 < n < 2 ^ 53 -> float64_to_Z (float64_of_int64 n) = Some n.
Proof.
  intros Hn. unfold float64_to_Z.
  destruct (float64_of_int64_spec n Hn) as [[-> ->] | (m & e & -> & _ & He & Hm)];
    [reflexivity |].
  destruct e as [| k | k]; [| lia |].
  - rewrite Z.mul_1_r in Hm. f_equal. destruct (Z.ltb_spec n 0); lia.
  - change (- Z.neg k) with (Z.pos k) in Hm.
    assert (Hpow : 0 < 2 ^ Z.pos k) by (apply Z.pow_pos_nonneg; lia).
    assert (Hmod : (Z.pos m mod 2 ^ Z.pos k =? 0) = true).
    { rewrite Hm, Z.mod_mul by lia. reflexivity. }
    rewrite Hmod. f_equal.
    destruct (Z.ltb_spec n 0).
    + rewrite Z.abs_neq in Hm by lia.
      assert (Hneg : Z.neg m = n * 2 ^ Z.pos k)
        by (rewrite <- Pos2Z.opp_pos, Hm; ring).
      rewrite Hneg. apply Z.div_mul. lia.
    + rewrite Z.abs_eq in Hm by lia. rewrite Hm. apply Z.div_mul. lia.
Qed.

(** *** Rounding of a quotient *)

(** A mantissa of at most 54 digits is shifted by at most one bit, and
    stays positive. *)
Lemma shr_fexp_positive (p : positive) (e : Z) (l : location) :
  Zpos (digits2_pos p) <= 54 -> -1074 <= e ->
  exists (p' : positive),
    shr_m (fst (shr_fexp prec emax (Zpos p) e l)) = Zpos p'
    /\ Zpos (digits2_pos p') <= 53
    /\ -1074 <= snd (shr_fexp prec emax (Zpos p) e l).
Proof.
  intros Hd He. unfold shr_fexp, Zdigits2.
  set (n := fexp prec emax (Zpos (digits2_pos p) + e) - e).
  assert (Hn : n <= 0 /\ Zpos (digits2_pos p) <= 53
               \/ n = 1 /\ Zpos (digits2_pos p) = 54).
  { subst n. unfold fexp, SpecFloat.emin, prec, emax. lia. }
  destruct Hn as [[Hn Hd'] | [Hn Hd']].
  - exists p. unfold shr. destruct n; [| lia |];
      (split; [destruct l as [| []]; reflexivity
              | split; [assumption | cbn [snd]; lia]]).
  - exists (Pos.div2 p). rewrite Hn. cbn [shr iter_pos fst snd].
    destruct p as [p0 | p0 |]; [| | cbn in Hd'; lia];
      cbn [digits2_pos] in Hd'; (split; [| split; [cbn [Pos.div2]; lia | lia]]);
      destruct l as [| []]; reflexivity.
Qed.

Lemma round_nearest_even_positive (p : positive) (l : location) :
  Zpos (digits2_pos p) <= 53 ->
  exists p' : positive,
    round_nearest_even (Zpos p) l = Zpos p' /\ Zpos (digits2_pos p') <= 54.
Proof.
  intros Hd.
  assert (Hsucc : Zpos (digits2_pos (p + 1)) <= 54).
  { apply digits_le; [lia |]. pose proof (digits_lt p) as Hlt.
    assert (2 ^ Zpos (digits2_pos p) <= 2 ^ 53) by (apply Z.pow_le_mono_r; lia).
    change (2 ^ 54) with (2 * 2 ^ 53). lia. }
  destruct l as [| []]; cbn [round_nearest_even].
  - exists p. split; [reflexivity | lia].
  - destruct (Z.even (Zpos p)).
    + exists p. split; [reflexivity | lia].
    + exists (p + 1)%positive. split; [reflexivity | assumption].
  - exists p. split; [reflexivity | lia].
  - exists (p + 1)%positive. split; [reflexivity | assumption].
Qed.

(** Rounding a positive mantissa of at most 54 digits never gives a zero. *)
Lemma binary_round_aux_nonzero (s : bool) (p : positive) (e : Z) (l : location) :
  Zpos (digits2_pos p) <= 54 -> -1074 <= e ->
  forall b, binary_round_aux prec emax s (Zpos p) e l <> S754_zero b.
Proof.
  intros Hd He b. unfold binary_round_aux.
  destruct (shr_fexp_positive p e l Hd He) as (p1 & H1 & Hd1 & He1).
  destruct (shr_fexp prec emax (Zpos p) e l) as [mrs' e'].
  cbn [fst snd] in H1, He1. rewrite H1.
  destruct (round_nearest_even_positive p1 (loc_of_shr_record mrs') Hd1)
    as (p2 & -> & Hd2).
  destruct (shr_fexp_positive p2 e' loc_Exact Hd2 He1) as (p3 & H3 & _ & _).
  destruct (shr_fexp prec emax (Zpos p2) e' loc_Exact) as [mrs'' e''].
  cbn [fst] in H3. rewrite H3.
  destruct (e'' <=? emax - prec); discriminate.
Qed.

(** The binary64 quotient of a non-zero integer below [2^53] by [10^9] is
    not a zero: it does not underflow. *)
Lemma SFdiv_by_1e9_nonzero (s : bool) (m : positive) (e : Z) :
  digits2_pos m = 53%positive -> -52 <= e <= 0 ->
  forall b,
    SFdiv prec emax (S754_finite s m e) (S754_finite false 8388608000000000 (-23))
    <> S754_zero b.
Proof.
  intros Hd He b. unfold SFdiv, SFdiv_core_binary, Zdigits2. rewrite Hd.
  change (Zpos (digits2_pos 8388608000000000)) with 53.
  replace (Z.min (fexp prec emax (53 + e - (53 + -23))) (e - -23)) with (e - 30)
    by (unfold fexp, SpecFloat.emin, prec, emax; lia).
  replace (e - -23 - (e - 30)) with 53 by lia.
  rewrite Z.shiftl_mul_pow2 by lia.
  pose proof (Z.div_eucl_eq (Zpos m * 2 ^ 53) (Zpos 8388608000000000) ltac:(lia)) as Heq.
  pose proof (Z.mod_pos_bound (Zpos m * 2 ^ 53) (Zpos 8388608000000000) ltac:(lia)) as Hr.
  unfold Z.modulo in Hr.
  destruct (Z.div_eucl (Zpos m * 2 ^ 53) (Zpos 8388608000000000)) as [q r].
  pose proof (digits_lt m) as Hlt. pose proof (digits_ge m) as Hge.
  rewrite Hd in Hlt, Hge.
  assert (Hq : 0 < q < 2 ^ 54).
  { change (2 ^ 53) with 9007199254740992 in *.
    change (2 ^ 54) with 18014398509481984. nia. }
  destruct q as [| q | q]; [lia | | lia].
  apply binary_round_aux_nonzero; [apply digits_le; lia | lia].
Qed.

(** *** Seconds *)

(** Adding [+0] changes nothing but [-0]. *)
Lemma add_zero_r (x : float64) :
  Prim2SF x <> S754_zero true -> PrimFloat.add x 0%float = x.
Proof.
  intros H. apply Prim2SF_inj. rewrite FloatAxioms.add_spec.
  change (Prim2SF 0%float) with (S754_zero false).
  destruct (Prim2SF x) as [[] | [] | | s m e]; try reflexivity. congruence.
Qed.

Lemma add_zero_l (y : float64) :
  Prim2SF y <> S754_zero true -> PrimFloat.add 0%float y = y.
Proof.
  intros H. apply Prim2SF_inj. rewrite FloatAxioms.add_spec.
  change (Prim2SF 0%float) with (S754_zero false).
  destruct (Prim2SF y) as [[] | [] | | s m e]; try reflexivity. congruence.
Qed.

(** Whole seconds: the sub-second term is [+0]. *)
Lemma Seconds_whole (n : Z) :
  - 2 ^ 53 < n < 2 ^ 53 ->
  time_Duration_Seconds (n * time_Second) = float64_of_int64 n.
Proof.
  intros Hn. unfold time_Duration_Seconds. cbv zeta.
  rewrite Z.quot_mul, Z.rem_mul by (unfold time_Second; lia).
  change (PrimFloat.div (float64_of_int64 0) 1e9%float) with 0%float.
  apply add_zero_r.
  destruct (float64_of_int64_spec n Hn) as [[_ ->] | (m & e & -> & _)]; congruence.
Qed.

(** Below one second, either side of zero: the whole-second term is [+0],
    and the quotient is not the negative zero. *)
Lemma Seconds_sub_second (d : Z) :
  - time_Second < d < time_Second ->
  time_Duration_Seconds d = PrimFloat.div (float64_of_int64 d) 1e9%float.
Proof.
  intros Hd. unfold time_Duration_Seconds. cbv zeta.
  assert (Hq : Z.quot d time_Second = 0).
  { apply Z.quot_small_iff; unfold time_Second in *; lia. }
  assert (Hr : Z.rem d time_Second = d).
  { apply Z.rem_small_iff; unfold time_Second in *; lia. }
  rewrite Hq, Hr.
  change (float64_of_int64 0) with 0%float.
  apply add_zero_l. rewrite FloatAxioms.div_spec.
  change (Prim2SF 1e9%float) with (S754_finite false 8388608000000000 (-23)).
  assert (Hd53 : - 2 ^ 53 < d < 2 ^ 53).
  { unfold time_Second in Hd. split.
    - apply Z.lt_trans with (-1000000000); [reflexivity | lia].
    - apply Z.lt_trans with 1000000000; [lia | reflexivity]. }
  destruct (float64_of_int64_spec d Hd53) as [[_ ->] | (m & e & -> & Hm & He & _)].
  - discriminate.
  - apply SFdiv_by_1e9_nonzero; assumption.
Qed.

(** Every [int64] duration: the sum of its whole seconds and of what is
    left of it. *)
Lemma Seconds_split (d : Z) :
  - 2 ^ 63 <= d < 2 ^ 63 ->
  time_Duration_Seconds d
  = PrimFloat.add (time_Duration_Seconds (Z.quot d time_Second * time_Second))
                  (time_Duration_Seconds (Z.rem d time_Second)).
Proof.
  intros Hd.
  pose proof (Z.quot_rem' d time_Second) as Hqr.
  assert (Hr : - time_Second < Z.rem d time_Second < time_Second).
  { pose proof (Z.rem_bound_abs d time_Second ltac:(unfold time_Second; lia)).
    unfold time_Second in *. lia. }
  assert (Hq53 : - 2 ^ 53 < Z.quot d time_Second < 2 ^ 53).
  { change (2 ^ 63) with 9223372036854775808 in Hd.
    change (2 ^ 53) with 9007199254740992.
    unfold time_Second in *. lia. }
  rewrite (Seconds_whole _ Hq53), (Seconds_sub_second _ Hr).
  reflexivity.
Qed.

End Seconds.

(** ** Recording, against an arbitrary export runtime *)

Section Recording.

Context (rt : Runtime).
Implicit Types (w : World rt) (p q : Go unit).

Lemma run_bind {A B : Type} (p : Go A) (f : A -> Go B) w :
  run rt (p ≫= f) w =
  let r1 := run rt p w in
  match outcome r1 with
  | Returned a =>
      let r2 := run rt (f a) (final r1) in
      {| trace := trace r1 ++ trace r2; outcome := outcome r2; final := final r2 |}
  | Panicked e =>
      {| trace := trace r1; outcome := Panicked e; final := final r1 |}
  end.
Proof.
  revert w. induction p as [a | e | c k IH]; intros w.
  - cbn. destruct (run rt (f a) w); reflexivity.
  - reflexivity.
  - match goal with
    | |- _ = ?rhs => change (run rt (Do c (fun r => k r ≫= f)) w = rhs)
    end.
    cbn [run]. destruct (reply rt c w) as [r w'].
    rewrite IH. cbn.
    destruct (outcome (run rt (k r) w')); reflexivity.
Qed.

Lemma run_seq p q w :
  outcome (run rt p w) = Returned tt ->
  run rt (seq p q) w =
  {| trace := trace (run rt p w) ++ trace (run rt q (final (run rt p w)));
     outcome := outcome (run rt q (final (run rt p w)));
     final := final (run rt q (final (run rt p w))) |}.
Proof.
  intros H. unfold seq. rewrite run_bind. cbn. rewrite H. reflexivity.
Qed.

(** One call of [stats.RecordWithTags] whose error is dropped. *)
Lemma run_RecordWithTags_dropped w (ctx : Context) (mutators : list tag_Mutator)
  (ms : list stats_Measurement) :
  run rt (_ ← stats_RecordWithTags ctx mutators ms; mret tt) w =
  {| trace := [CallRecordWithTags ctx mutators ms];
     outcome := Returned tt;
     final := snd (reply rt (CallRecordWithTags ctx mutators ms) w) |}.
Proof.
  cbn. destruct (reply rt (CallRecordWithTags ctx mutators ms) w); reflexivity.
Qed.

Lemma run_intMetric_call w (m : intMetric) (c : CounterCall) :
  run rt (intMetric_call m c) w =
  let call := CallRecordWithTags context_Background (intMetric_mutators m)
                [Int64Measure_M (intMetric_measure m) (delta c)] in
  {| trace := [call]; outcome := Returned tt; final := snd (reply rt call w) |}.
Proof.
  destruct c; apply run_RecordWithTags_dropped.
Qed.


Lemma run_latencyAdapter_Observe w (a : latencyAdapter) (verb : string) (u : url_URL)
  (latency : time_Duration) :
  let new := CallTagNew context_Background
               [tag_Insert TagVerb verb; tag_Insert TagURL (url_String u)] in
  let rec := CallRecord (fst (fst (reply rt new w)))
               [Float64Measure_M (latencyAdapter_metric a)
                  (time_Duration_Seconds latency)] in
  run rt (latencyAdapter_Observe a verb u latency) w =
  {| trace := [new; rec];
     outcome := Returned tt;
     final := snd (reply rt rec (snd (reply rt new w))) |}.
Proof.
  cbn. destruct (reply rt (CallTagNew _ _) w) as [[ctx err] w1]. cbn.
  destruct (reply rt (CallRecord _ _) w1) as [[] w2]. done.
Qed.

Lemma run_resultAdapter_Increment w (a : resultAdapter) (code method host : string) :
  let new := CallTagNew context_Background
               [tag_Insert TagCode code; tag_Insert TagMethod method;
                tag_Insert TagHost host] in
  let rec := CallRecord (fst (fst (reply rt new w)))
               [Int64Measure_M (resultAdapter_metric a) 1] in
  run rt (resultAdapter_Increment a code method host) w =
  {| trace := [new; rec];
     outcome := Returned tt;
     final := snd (reply rt rec (snd (reply rt new w))) |}.
Proof.
  cbn. destruct (reply rt (CallTagNew _ _) w) as [[ctx err] w1]. cbn.
  destruct (reply rt (CallRecord _ _) w1) as [[] w2]. done.
Qed.

(** *** Counters *)

Lemma run_intMetric_calls (m : intMetric) (cs : list CounterCall) w :
  trace (run rt (intMetric_calls m cs) w) =
    map (fun c => CallRecordWithTags context_Background (intMetric_mutators m)
                    [Int64Measure_M (intMetric_measure m) (delta c)]) cs
  /\ outcome (run rt (intMetric_calls m cs) w) = Returned tt.
Proof.
  revert w. induction cs as [| c cs IH]; intros w; [done |].
  cbn [intMetric_calls]. rewrite run_seq by (by rewrite run_intMetric_call).
  rewrite run_intMetric_call. cbv zeta. cbn [trace outcome final app map].
  set (w' := snd _). destruct (IH w') as [-> ->]. done.
Qed.

Lemma recorded_intMetric_calls (m : intMetric) (cs : list CounterCall) w :
  recorded (trace (run rt (intMetric_calls m cs) w)) =
  map (fun c => Int64Measure_M (intMetric_measure m) (delta c)) cs.
Proof.
  destruct (run_intMetric_calls m cs w) as [-> _].
  unfold recorded. induction cs as [| c cs IH]; [done |].
  cbn. by rewrite IH.
Qed.

(** C3: every [Inc] on a counter adapter hands exactly one record of value
    +1 to the export runtime and every [Dec] one record of value -1, so the
    records of any sequence with N [Inc] and M [Dec] calls sum to N - M. *)
Theorem C3_counter_net_delta w (m : intMetric) (cs : list CounterCall) :
  let records := recorded (trace (run rt (intMetric_calls m cs) w)) in
  records = map (fun c => Int64Measure_M (intMetric_measure m)
                            (if is_inc c then 1 else -1)%Z) cs
  /\ Zsum (map Measurement_Int64 records)
     = (count_calls is_inc cs - count_calls is_dec cs)%Z
  /\ outcome (run rt (intMetric_calls m cs) w) = Returned tt.
Proof.
  cbn zeta. rewrite recorded_intMetric_calls. split_and!.
  - apply map_ext. by intros [].
  - rewrite <- Zsum_delta. f_equal. rewrite map_map. done.
  - apply run_intMetric_calls.
Qed.

(** C10: the depth adapter of the workqueue provider is a counter: over any
    sequence of calls every record it hands over is against [MeasureDepth]
    and has value +1 or -1, [Observe] and [Set] are not among its methods,
    and yet [ViewDepth] aggregates [MeasureDepth] by last value. *)
Theorem C10_depth_records_steps w (name : string) (cs : list CounterCall) :
  let depth := workqueueMetricsProvider.NewDepthMetric name in
  let records := recorded (trace (run rt (intMetric_calls depth cs) w)) in
  construct (Workqueue W_NewDepthMetric) name = IntSink depth
  /\ length records = length cs
  /\ Forall (fun r => Measurement_Measure r = IntMeasure MeasureDepth
                      /\ (Measurement_Int64 r = 1 \/ Measurement_Int64 r = -1)%Z)
            records
  /\ (forall v, invoke (IntSink depth) (CallObserve v) = None
                /\ invoke (IntSink depth) (CallSet v) = None)
  /\ Measure ViewDepth = IntMeasure MeasureDepth
  /\ Aggregation ViewDepth = view_LastValue.
Proof.
  cbn zeta. rewrite recorded_intMetric_calls. split_and!; try done.
  - by rewrite length_map.
  - apply Forall_map, Forall_forall. intros [] _; cbn; auto.
Qed.

(** *** Gauges *)


(** *** Name-bound adapters *)

(** A method of a sink makes one call: [stats.RecordWithTags] under the
    background context, with the sink's mutators and one measurement
    against the sink's measure. *)
Lemma run_invoke w (s : Sink) (c : MetricCall) p :
  invoke s c = Some p ->
  exists m : stats_Measurement,
    Measurement_Measure m = Sink_measure s
    /\ run rt p w =
       {| trace := [CallRecordWithTags context_Background (Sink_mutators s) [m]];
          outcome := Returned tt;
          final := snd (reply rt
                     (CallRecordWithTags context_Background (Sink_mutators s) [m]) w) |}.
Proof.
  destruct s as [m | m], c as [| | v | v]; intros [= <-];
    (eexists; split; [| apply run_RecordWithTags_dropped]; done).
Qed.

Lemma run_invoke_all (s : Sink) (cs : list MetricCall) :
  forall p w,
    invoke_all s cs = Some p ->
    outcome (run rt p w) = Returned tt
    /\ length (trace (run rt p w)) = length cs
    /\ Forall (fun c => exists m, Measurement_Measure m = Sink_measure s
                 /\ c = CallRecordWithTags context_Background (Sink_mutators s) [m])
              (trace (run rt p w)).
Proof.
  induction cs as [| c cs IH]; intros p w H.
  - injection H as <-. cbn. auto.
  - cbn [invoke_all] in H.
    destruct (invoke s c) as [p1 |] eqn:H1; [| done].
    destruct (invoke_all s cs) as [p2 |] eqn:H2; [| done].
    injection H as <-.
    destruct (run_invoke w s c p1 H1) as (m & Hm & Hrun).
    rewrite run_seq by (by rewrite Hrun). rewrite Hrun.
    cbn [trace outcome final app length].
    set (w' := snd _). destruct (IH p2 w' eq_refl) as (Hout & Hlen & Hall).
    split_and!; [done | by rewrite Hlen |].
    constructor; [by exists m | done].
Qed.

(** C1: a sink built by any factory method of the reflector or workqueue
    provider with name [n] hands over, for every sequence of calls made on
    it and whatever the runtime answers, one record per call, and every
    record carries the tag [name -> n] (and no other). *)
Theorem C1_name_tag_on_every_record (f : Factory) (n : string) (cs : list MetricCall)
  p w :
  invoke_all (construct f n) cs = Some p ->
  length (trace (run rt p w)) = length cs
  /\ Forall (fun c => length (measurements c) = 1
                      /\ (TagName, n) ∈ inserted c
                      /\ inserted c = [(TagName, n)])
            (trace (run rt p w)).
Proof.
  intros H. destruct (run_invoke_all _ cs p w H) as (_ & Hlen & Hall).
  split; [done |].
  eapply Forall_impl; [exact Hall |].
  intros c (m & _ & ->). rewrite construct_mutators. cbn.
  split_and!; [done | apply list_elem_of_singleton; done | done].
Qed.

(** *** Client adapters *)

(** C5: each call of a client adapter builds its tag context afresh, from
    the background context and the tag values of that call, and hands
    exactly one measurement to [stats.Record] under the context [tag.New]
    answered; the result adapter records 1, the latency adapter records
    the duration in seconds.  What "in seconds" comes to is stated on its
    own: a duration of [n] whole seconds is recorded as the float of value
    exactly [n], over the whole range of [int64] nanoseconds and for either
    sign; a duration [d] of less than a second, either side of zero, is
    recorded as the binary64 quotient of [d] by [10^9], both converted
    exactly; and every [int64] duration is recorded as the binary64 sum of
    what is recorded for its whole seconds and for the rest of it. *)
Theorem C5_fixed_tag_adapters w :
  (forall (a : latencyAdapter) (verb : string) (u : url_URL) (latency : time_Duration),
     let new := CallTagNew context_Background
                  [tag_Insert TagVerb verb; tag_Insert TagURL (url_String u)] in
     let ctx := fst (fst (reply rt new w)) in
     let r := run rt (latencyAdapter_Observe a verb u latency) w in
     trace r = [new; CallRecord ctx [Float64Measurement (latencyAdapter_metric a)
                                       (time_Duration_Seconds latency)]]
     /\ recorded (trace r) = [Float64Measurement (latencyAdapter_metric a)
                                (time_Duration_Seconds latency)]
     /\ outcome r = Returned tt)
  /\ (forall (a : resultAdapter) (code method host : string),
     let new := CallTagNew context_Background
                  [tag_Insert TagCode code; tag_Insert TagMethod method;
                   tag_Insert TagHost host] in
     let ctx := fst (fst (reply rt new w)) in
     let r := run rt (resultAdapter_Increment a code method host) w in
     trace r = [new; CallRecord ctx [Int64Measurement (resultAdapter_metric a) 1]]
     /\ recorded (trace r) = [Int64Measurement (resultAdapter_metric a) 1]
     /\ outcome r = Returned tt)
  /\ (forall n : Z,
        (-9223372036 <= n <= 9223372036)%Z ->
        time_Duration_Seconds (n * time_Second)%Z = float64_of_int64 n
        /\ float64_to_Z (time_Duration_Seconds (n * time_Second)%Z) = Some n)
  /\ (forall d : time_Duration,
        (- time_Second < d < time_Second)%Z ->
        time_Duration_Seconds d = PrimFloat.div (float64_of_int64 d) 1e9%float
        /\ float64_to_Z (float64_of_int64 d) = Some d
        /\ float64_to_Z 1e9%float = Some time_Second)
  /\ (forall d : time_Duration,
        (- 2 ^ 63 <= d < 2 ^ 63)%Z ->
        time_Duration_Seconds d
        = PrimFloat.add
            (time_Duration_Seconds (Z.quot d time_Second * time_Second)%Z)
            (time_Duration_Seconds (Z.rem d time_Second))).
Proof.
  split_and!.
  - intros; subst new ctx r. by rewrite run_latencyAdapter_Observe.
  - intros; subst new ctx r. by rewrite run_resultAdapter_Increment.
  - intros n Hn.
    assert (Hn53 : (- 2 ^ 53 < n < 2 ^ 53)%Z).
    { split.
      - apply Z.lt_le_trans with (-9223372036)%Z; [reflexivity | lia].
      - apply Z.le_lt_trans with 9223372036%Z; [lia | reflexivity]. }
    rewrite (Seconds_whole n Hn53). split; [done |].
    by apply float64_to_Z_of_int64.
  - intros d Hd. split_and!; [by apply Seconds_sub_second | | done].
    apply float64_to_Z_of_int64. unfold time_Second in Hd. split.
    + apply Z.lt_trans with (-1000000000)%Z; [reflexivity | lia].
    + apply Z.lt_trans with 1000000000%Z; [lia | reflexivity].
  - apply Seconds_split.
Qed.

(** *** Errors *)

(** C6: no recording operation fails its caller: whatever the runtime
    answers, errors included, the operation returns normally (it neither
    panics nor has an error to return), and it behaves exactly as it does
    against the runtime with every error replaced by nil: same calls, same
    final state, one measurement handed over. *)
Theorem C6_recording_errors_discarded w (op : RecordingOp) :
  outcome (run rt (perform op) w) = Returned tt
  /\ trace (run rt (perform op) w) = trace (run (silent rt) (perform op) w)
  /\ final (run rt (perform op) w) = final (run (silent rt) (perform op) w)
  /\ length (recorded (trace (run rt (perform op) w))) = 1.
Proof.
  destruct op; cbn.
  1-2: destruct (reply rt (CallTagNew _ _) w) as [[ctx err] w1]; cbn;
       by destruct (reply rt (CallRecord _ _) w1) as [[] w2].
  all: by destruct (reply rt (CallRecordWithTags _ _ _) w) as [err w1].
Qed.

(** *** Calls on the registered adapters *)

Lemma system_call_trace (sc : SystemCall) p w :
  system_call sc = Some p ->
  recorded_measures (trace (run rt p w)) = [SystemCall_measure sc]
  /\ inserted_keys (trace (run rt p w)) = SystemCall_keys sc.
Proof.
  destruct sc as [verb u latency | code method host | f name c]; cbn [system_call].
  - intros [= <-]. by rewrite run_latencyAdapter_Observe.
  - intros [= <-]. by rewrite run_resultAdapter_Increment.
  - intros H. destruct (run_invoke w _ c p H) as (m & Hm & ->).
    rewrite construct_mutators, construct_measure in *.
    unfold recorded_measures, recorded, inserted_keys. cbn. by rewrite Hm.
Qed.

End Recording.

Lemma C1_name_tag_on_every_record_witness :
  exists p : Go unit,
    invoke_all (construct (Workqueue W_NewAddsMetric) "foo") [CallInc; CallInc] = Some p
    /\ length (trace (run test_double p [])) = 2
    /\ Forall (fun c => length (measurements c) = 1
                        /\ (TagName, "foo") ∈ inserted c
                        /\ inserted c = [(TagName, "foo")])
              (trace (run test_double p [])).
Proof.
  eexists. split; [reflexivity |].
  apply (C1_name_tag_on_every_record test_double (Workqueue W_NewAddsMetric) "foo"
           [CallInc; CallInc] _ []).
  reflexivity.
Defined.

(** ** Views against the adapters *)

Local Ltac by_call sc := exists sc; split; [by eexists | reflexivity].

(** C4: every view of pkg/metrics is bound to a measure that some
    registered adapter records against, and whenever a call on a
    registered adapter records against a view's measure, the view's tag
    keys are among the keys that call inserts.  For pkg/webhook/metrics the
    views' keys are among the keys documented for their measures. *)
Theorem C4_view_tag_keys_emitted :
  (forall r : metrics.ViewRef,
     (exists (sc : SystemCall) (p : Go unit),
        system_call sc = Some p
        /\ forall (rt : Runtime) (w : World rt),
             Measure (metrics.deref r) ∈ recorded_measures (trace (run rt p w)))
     /\ (forall (sc : SystemCall) (p : Go unit) (rt : Runtime) (w : World rt),
           system_call sc = Some p ->
           Measure (metrics.deref r) ∈ recorded_measures (trace (run rt p w)) ->
           TagKeys (metrics.deref r) ⊆ inserted_keys (trace (run rt p w))))
  /\ (forall r : webhook_metrics.ViewRef,
        TagKeys (webhook_metrics.deref r) <> []
        /\ TagKeys (webhook_metrics.deref r)
           ⊆ webhook_metrics.RecordedTagKeys (Measure (webhook_metrics.deref r))).
Proof.
  split.
  - intros r. split.
    + assert (Hex : exists sc : SystemCall,
                 is_Some (system_call sc)
                 /\ Measure (metrics.deref r) = SystemCall_measure sc).
      { destruct r;
          first
            [ by_call (ClientObserve "" {| url_String := "" |} 0%Z)
            | by_call (ClientIncrement "" "" "")
            | by_call (MetricCallOn (Reflector R_NewListsMetric) "" CallInc)
            | by_call (MetricCallOn (Reflector R_NewListDurationMetric) ""
                         (CallObserve 0%float))
            | by_call (MetricCallOn (Reflector R_NewItemsInListMetric) ""
                         (CallObserve 0%float))
            | by_call (MetricCallOn (Reflector R_NewWatchesMetric) "" CallInc)
            | by_call (MetricCallOn (Reflector R_NewShortWatchesMetric) "" CallInc)
            | by_call (MetricCallOn (Reflector R_NewWatchDurationMetric) ""
                         (CallObserve 0%float))
            | by_call (MetricCallOn (Reflector R_NewItemsInWatchMetric) ""
                         (CallObserve 0%float))
            | by_call (MetricCallOn (Reflector R_NewLastResourceVersionMetric) ""
                         (CallSet 0%float))
            | by_call (MetricCallOn (Workqueue W_NewDepthMetric) "" CallInc)
            | by_call (MetricCallOn (Workqueue W_NewAddsMetric) "" CallInc)
            | by_call (MetricCallOn (Workqueue W_NewLatencyMetric) ""
                         (CallObserve 0%float))
            | by_call (MetricCallOn (Workqueue W_NewWorkDurationMetric) ""
                         (CallObserve 0%float))
            | by_call (MetricCallOn (Workqueue W_NewRetriesMetric) "" CallInc)
            | by_call (MetricCallOn
                         (Workqueue W_NewLongestRunningProcessorMicrosecondsMetric) ""
                         (CallSet 0%float))
            | by_call (MetricCallOn (Workqueue W_NewUnfinishedWorkSecondsMetric) ""
                         (CallSet 0%float)) ]. }
      destruct Hex as (sc & [p Hp] & Hm). exists sc, p. split; [done |].
      intros rt w. destruct (system_call_trace rt sc p w Hp) as [-> _].
      rewrite Hm. apply list_elem_of_singleton. done.
    + intros sc p rt w Hp Hin.
      destruct (system_call_trace rt sc p w Hp) as [Hm ->].
      rewrite Hm in Hin. apply list_elem_of_singleton in Hin.
      destruct (view_keys_of_recorder r) as (Hlat & Hres & Hfac).
      destruct sc as [verb u latency | code method host | f name c]; cbn in *.
      * by apply Hlat.
      * by apply Hres.
      * rewrite Forall_forall in Hfac. apply (Hfac f); [| done].
        apply Factory_in_factories.
  - intros []; (split; [done |]); intros k Hk; exact Hk.
Qed.

(** ** Name-bound adapters against the test double *)

Lemma double_reply_name (n : string) (m : stats_Measurement) (log : list Exported) :
  snd (double_reply
         (CallRecordWithTags context_Background [tag_Insert TagName n] [m]) log)
  = if checkValue n
    then log ++ [{| exported_measurement := m; exported_tags := [(TagName, n)] |}]
    else log.
Proof. cbn. by destruct (checkValue n). Qed.

(** What the double holds after any sequence of calls on a sink named [n]:
    what it held before and, when [n] is a valid tag value, one record per
    call, each tagged [name -> n] and nothing else. *)
Lemma double_keeps_name_tag (f : Factory) (n : string) (cs : list MetricCall) :
  forall (p : Go unit) (log : list Exported),
    invoke_all (construct f n) cs = Some p ->
    exists kept : list Exported,
      final (run test_double p log) = log ++ kept
      /\ Forall (fun e => exported_tags e = [(TagName, n)]) kept
      /\ length kept = if checkValue n then length cs else 0.
Proof.
  induction cs as [| c cs IH]; intros p log H.
  - injection H as <-. exists []. cbn. rewrite app_nil_r. by destruct (checkValue n).
  - cbn [invoke_all] in H.
    destruct (invoke (construct f n) c) as [p1 |] eqn:H1; [| done].
    destruct (invoke_all (construct f n) cs) as [p2 |] eqn:H2; [| done].
    injection H as <-.
    destruct (run_invoke test_double log _ c p1 H1) as (m & _ & Hrun).
    rewrite run_seq by (by rewrite Hrun). rewrite Hrun. cbn [final].
    rewrite construct_mutators.
    change (reply test_double) with double_reply. rewrite double_reply_name.
    destruct (checkValue n) eqn:Hn.
    + destruct (IH p2 (log ++ [{| exported_measurement := m;
                                  exported_tags := [(TagName, n)] |}]) eq_refl)
        as (kept & -> & Hall & Hlen).
      exists ({| exported_measurement := m; exported_tags := [(TagName, n)] |} :: kept).
      split_and!.
      * by rewrite <- app_assoc.
      * by constructor.
      * cbn. by rewrite Hlen.
    + destruct (IH p2 log eq_refl) as (kept & -> & Hall & Hlen). by exists kept.
Qed.

(** ** The adapters against the test doubles *)

Example Seconds_of_1500ms : time_Duration_Seconds 1500000000%Z = 1.5%float.
Proof. reflexivity. Qed.

Example Seconds_of_minus_250ms : time_Duration_Seconds (-250000000)%Z = (-0.25)%float.
Proof. reflexivity. Qed.

Example Seconds_of_minus_3s_is_minus_3 :
  float64_to_Z (time_Duration_Seconds (-3000000000)%Z) = Some (-3)%Z.
Proof. by vm_compute. Qed.

Example Seconds_of_half_a_second_is_no_integer :
  float64_to_Z (time_Duration_Seconds 500000000%Z) = None.
Proof. by vm_compute. Qed.

(** Three requests answered 200 and one answered 500: the double holds four
    records of value 1 against [MeasureRequestResult], tagged by code. *)
Example result_adapter_on_double :
  let a := RequestResult init in
  let p := seq (resultAdapter_Increment a "200" "GET" "api")
          (seq (resultAdapter_Increment a "200" "GET" "api")
          (seq (resultAdapter_Increment a "500" "GET" "api")
               (resultAdapter_Increment a "200" "GET" "api"))) in
  map (fun e => (exported_measurement e, exported_tags e !! 0%nat))
      (final (run test_double p []))
  = [ (Int64Measurement MeasureRequestResult 1, Some (TagCode, "200"));
      (Int64Measurement MeasureRequestResult 1, Some (TagCode, "200"));
      (Int64Measurement MeasureRequestResult 1, Some (TagCode, "500"));
      (Int64Measurement MeasureRequestResult 1, Some (TagCode, "200")) ].
Proof. reflexivity. Qed.

(** [Set 5] then [Set 3] on the unfinished-work gauge of "queue-A": two
    records, 5 then 3, both tagged with the queue's name. *)
Example gauge_on_double :
  let g := workqueueMetricsProvider.NewUnfinishedWorkSecondsMetric "queue-A" in
  final (run test_double (seq (floatMetric_Set g 5%float) (floatMetric_Set g 3%float)) [])
  = [ {| exported_measurement := Float64Measurement MeasureUnfinishedWork 5%float;
         exported_tags := [(TagName, "queue-A")] |};
      {| exported_measurement := Float64Measurement MeasureUnfinishedWork 3%float;
         exported_tags := [(TagName, "queue-A")] |} ].
Proof. reflexivity. Qed.

(** A verb holding a line feed is not a valid tag value: the double's
    [tag.New] answers an error and the background context, the adapter
    goes on, and the latency is kept without tags. *)
Example latency_adapter_invalid_verb :
  let line_feed := String (ascii_of_nat 10) EmptyString in
  final (run test_double
           (latencyAdapter_Observe (RequestLatency init) line_feed
              {| url_String := "https://api/pods" |} 2000000000%Z) [])
  = [ {| exported_measurement := Float64Measurement metrics.MeasureRequestLatency 2%float;
         exported_tags := [] |} ].
Proof. reflexivity. Qed.

(** A queue name holding a line feed: [Inc] hands its record to
    [stats.RecordWithTags] all the same, and it is the double that keeps
    nothing. *)
Example counter_invalid_name :
  let line_feed := String (ascii_of_nat 10) EmptyString in
  let r := run test_double
             (intMetric_Inc (workqueueMetricsProvider.NewAddsMetric line_feed)) [] in
  trace r = [ CallRecordWithTags context_Background [tag_Insert TagName line_feed]
                [Int64Measurement MeasureAdds 1] ]
  /\ outcome r = Returned tt
  /\ final r = [].
Proof. done. Qed.

(** Against the runtime that fails every call the adapters still return:
    both calls of [Observe] and the call of [Inc] reach the runtime. *)
Example adapters_on_failing_runtime :
  run failing_runtime
      (seq (latencyAdapter_Observe (RequestLatency init) "GET"
              {| url_String := "https://api/pods" |} 1000000000%Z)
           (intMetric_Inc (workqueueMetricsProvider.NewAddsMetric "q"))) 0%nat
  = {| trace :=
         [ CallTagNew context_Background
             [tag_Insert TagVerb "GET"; tag_Insert TagURL "https://api/pods"];
           CallRecord context_Background
             [Float64Measurement metrics.MeasureRequestLatency 1%float];
           CallRecordWithTags context_Background [tag_Insert TagName "q"]
             [Int64Measurement MeasureAdds 1] ];
       outcome := Returned tt;
       final := 3%nat |}.
Proof. reflexivity. Qed.

(** * Further properties of the packages *)

(** ** Tag keys: when [mustNewTagKey] returns *)

(** X1: [mustNewTagKey], the same function in both packages, returns
    exactly on the names of 1 to 255 printable US-ASCII characters, and then
    the key it returns carries the name unchanged; on every other name
    (empty, too long, a control or non-ASCII byte) it panics with the error
    of [tag.NewKey]. *)
Theorem mustNewTagKey_returns_iff (k : string) :
  let valid := (1 <= String.length k <= 255)%nat
               /\ Forall (fun b => (32 <= nat_of_ascii b <= 126)%nat)
                    (list_ascii_of_string k) in
  ((exists key, metrics.mustNewTagKey k = Return key) <-> valid)
  /\ (forall key, metrics.mustNewTagKey k = Return key -> tag_Key_Name key = k)
  /\ (~ valid -> metrics.mustNewTagKey k = Panic errInvalidKeyName)
  /\ webhook_metrics.mustNewTagKey k = metrics.mustNewTagKey k.
Proof.
  cbn zeta. rewrite <- checkKeyName_spec.
  destruct (checkKeyName k) eqn:Hk.
  - destruct (mustNewTagKey_valid k Hk) as [-> ->]. split_and!.
    + split; [done | by eexists].
    + by intros key [= <-].
    + done.
    + done.
  - destruct (mustNewTagKey_invalid k Hk) as [-> ->]. split_and!.
    + split; [by intros [key [=]] | done].
    + by intros key [=].
    + done.
    + done.
Qed.

(** X2: the tag-key variables are initialised one after the other, and
    the first invalid name stops the initialisation with a panic: a list of
    names initialises to the list of their keys when all are valid, and
    panics as soon as one is not, whatever follows it. *)
Theorem tag_keys_initialise_or_panic (names : list string) :
  (Forall (fun k => checkKeyName k = true) names ->
     mapM metrics.mustNewTagKey names
     = Return (map (fun k => {| tag_Key_Name := k |}) names))
  /\ (forall (good : list string) (bad : string) (rest : list string),
        names = good ++ bad :: rest ->
        Forall (fun k => checkKeyName k = true) good ->
        checkKeyName bad = false ->
        mapM metrics.mustNewTagKey names = Panic errInvalidKeyName).
Proof.
  assert (Hgood : forall l, Forall (fun k => checkKeyName k = true) l ->
            mapM metrics.mustNewTagKey l
            = Return (map (fun k => {| tag_Key_Name := k |}) l)).
  { induction l as [| k l IH]; intros H; [done |].
    inversion_clear H as [| ? ? Hk Hl]. cbn [mapM].
    destruct (mustNewTagKey_valid k Hk) as [-> _]. cbn.
    rewrite (IH Hl). done. }
  split; [apply Hgood |].
  intros good bad rest -> Hall Hbad.
  induction good as [| k good IH].
  - cbn [app mapM]. destruct (mustNewTagKey_invalid bad Hbad) as [-> _]. done.
  - inversion_clear Hall as [| ? ? Hk Hl]. cbn [app mapM].
    destruct (mustNewTagKey_valid k Hk) as [-> _]. cbn.
    rewrite (IH Hl). done.
Qed.

Lemma tag_keys_initialise_or_panic_witness :
  mapM metrics.mustNewTagKey ["verb"; "url"]
  = Return [{| tag_Key_Name := "verb" |}; {| tag_Key_Name := "url" |}]
  /\ mapM metrics.mustNewTagKey ["verb"; ""; "url"] = Panic errInvalidKeyName.
Proof.
  split.
  - apply (proj1 (tag_keys_initialise_or_panic ["verb"; "url"])).
    repeat constructor.
  - apply (proj2 (tag_keys_initialise_or_panic ["verb"; ""; "url"]) ["verb"] "" ["url"]).
    + reflexivity.
    + repeat constructor.
    + reflexivity.
Defined.

(** ** The catalog: measures, recorders and views line up *)

(** X3: in each package the measures the views are bound to are, view by
    view and in the same order, the declared measures: every declared
    measure has exactly one view and every view a declared measure of its
    own (no two views share a measure). *)
Theorem views_cover_measures :
  map (fun r => Measure (metrics.deref r)) metrics.DefaultViews = metrics.Measures
  /\ map (fun r => Measure (webhook_metrics.deref r)) webhook_metrics.DefaultViews
     = webhook_metrics.Measures
  /\ NoDup (metrics.Measures ++ webhook_metrics.Measures)
  /\ (forall r r' : metrics.ViewRef,
        Measure (metrics.deref r) = Measure (metrics.deref r') -> r = r')
  /\ (forall r r' : webhook_metrics.ViewRef,
        Measure (webhook_metrics.deref r) = Measure (webhook_metrics.deref r') -> r = r').
Proof.
  split_and!; [done | done | by_evaluation | |].
  - intros r r' H.
    assert (Hinj : bool_decide
              (Forall (fun a => Forall (fun b =>
                 Measure (metrics.deref a) = Measure (metrics.deref b) -> a = b)
                 metrics.DefaultViews) metrics.DefaultViews) = true)
      by (vm_compute; reflexivity).
    apply bool_decide_eq_true_1 in Hinj. rewrite Forall_forall in Hinj.
    assert (Hr : r ∈ metrics.DefaultViews) by (destruct r; by_evaluation).
    assert (Hr' : r' ∈ metrics.DefaultViews) by (destruct r'; by_evaluation).
    specialize (Hinj r Hr). rewrite Forall_forall in Hinj. by apply Hinj.
  - intros [] [] H; try reflexivity; discriminate H.
Qed.

Lemma recorder_measures_NoDup : NoDup recorder_measures.
Proof. by_evaluation. Qed.

Lemma Factory_measure_injective (f f' : Factory) :
  Factory_measure f = Factory_measure f' -> f = f'.
Proof.
  intros H.
  assert (Hf : forall g, exists i, factories !! i = Some g).
  { intros g. apply list_elem_of_lookup, Factory_in_factories. }
  destruct (Hf f) as [i Hi], (Hf f') as [j Hj].
  assert (Hnd : NoDup (map Factory_measure factories)).
  { pose proof recorder_measures_NoDup as Hnd. unfold recorder_measures in Hnd.
    by do 2 apply NoDup_cons_1_2 in Hnd. }
  assert (i = j); [| congruence].
  eapply NoDup_lookup; [exact Hnd | |].
  - rewrite list_lookup_fmap, Hi. reflexivity.
  - rewrite list_lookup_fmap, Hj, H. reflexivity.
Qed.

(** X4: the measures of pkg/metrics are recorded by exactly one adapter
    each: listed in declaration order they are the measure of the latency
    adapter, that of the result adapter and those of the fifteen factory
    methods, and no two factory methods bind the same measure. *)
Theorem recorders_cover_measures :
  recorder_measures = metrics.Measures
  /\ NoDup recorder_measures
  /\ (forall f f' : Factory, Factory_measure f = Factory_measure f' -> f = f')
  /\ (forall f : Factory,
        Factory_measure f <> FloatMeasure (latencyAdapter_metric (RequestLatency init))
        /\ Factory_measure f <> IntMeasure (resultAdapter_metric (RequestResult init))).
Proof.
  pose proof recorder_measures_NoDup as Hnd.
  split_and!; [done | done | apply Factory_measure_injective |].
  intros f. unfold recorder_measures in Hnd.
  assert (Hin : Factory_measure f ∈ map Factory_measure factories).
  { apply list_elem_of_fmap. exists f. split; [done | apply Factory_in_factories]. }
  apply NoDup_cons in Hnd as [H1 Hnd]. apply NoDup_cons in Hnd as [H2 _].
  split; intros Heq; rewrite Heq in Hin.
  - apply H1. by apply list_elem_of_further.
  - by apply H2.
Qed.

(** X5: a call on a registered adapter records against a measure that
    exactly one view of [DefaultViews] is bound to, and the tag keys the
    call inserts are that view's [TagKeys] up to order: every key of the
    view is inserted, once, and no other key is.  Being a statement up to
    order, it does not depend on the order a view lists its keys in. *)
Theorem call_keys_are_view_keys (rt : Runtime) (w : World rt) (sc : SystemCall)
  (p : Go unit) :
  system_call sc = Some p ->
  exists r : metrics.ViewRef,
    views_of (SystemCall_measure sc) = [r]
    /\ recorded_measures (trace (run rt p w)) = [Measure (metrics.deref r)]
    /\ inserted_keys (trace (run rt p w)) ≡ₚ TagKeys (metrics.deref r)
    /\ NoDup (inserted_keys (trace (run rt p w))).
Proof.
  intros H. destruct (system_call_trace rt sc p w H) as [-> ->].
  exists (hd ref_ViewDepth (views_of (SystemCall_measure sc))).
  assert (Hkeys : SystemCall_keys sc
                  = TagKeys (metrics.deref
                               (hd ref_ViewDepth (views_of (SystemCall_measure sc))))
                  /\ NoDup (SystemCall_keys sc)).
  { destruct sc as [verb u latency | code method host | f name c];
      [| | destruct f as [[] | []]]; (split; [by vm_compute | by_evaluation]). }
  destruct Hkeys as [Hkeys Hnd]. rewrite <- Hkeys. split_and!; [| | done | done].
  - destruct sc as [verb u latency | code method host | f name c];
      [| | destruct f as [[] | []]]; by vm_compute.
  - destruct sc as [verb u latency | code method host | f name c];
      [| | destruct f as [[] | []]]; by vm_compute.
Qed.

Lemma call_keys_are_view_keys_witness :
  exists r : metrics.ViewRef,
    views_of (SystemCall_measure (ClientIncrement "200" "GET" "api")) = [r]
    /\ recorded_measures
         (trace (run failing_runtime
                   (resultAdapter_Increment (RequestResult init) "200" "GET" "api") 0%nat))
       = [Measure (metrics.deref r)]
    /\ inserted_keys
         (trace (run failing_runtime
                   (resultAdapter_Increment (RequestResult init) "200" "GET" "api") 0%nat))
       ≡ₚ TagKeys (metrics.deref r)
    /\ NoDup (inserted_keys
         (trace (run failing_runtime
                   (resultAdapter_Increment (RequestResult init) "200" "GET" "api") 0%nat))).
Proof.
  apply (call_keys_are_view_keys failing_runtime 0%nat
           (ClientIncrement "200" "GET" "api")).
  reflexivity.
Defined.

(** X6: the aggregations fit the kind of the measures: in both packages
    every distribution view is bound to a float measure and every count
    view to an integer measure (last-value views are bound to either). *)
Theorem aggregations_fit_measures :
  (forall r : metrics.ViewRef,
     match Aggregation (metrics.deref r) with
     | view_Distribution _ => Measure_is_float (Measure (metrics.deref r)) = true
     | view_Count => Measure_is_float (Measure (metrics.deref r)) = false
     | view_LastValue => True
     end)
  /\ (forall r : webhook_metrics.ViewRef,
     match Aggregation (webhook_metrics.deref r) with
     | view_Distribution _ => Measure_is_float (Measure (webhook_metrics.deref r)) = true
     | view_Count => Measure_is_float (Measure (webhook_metrics.deref r)) = false
     | view_LastValue => True
     end).
Proof. split; by intros []. Qed.

(** X7: the bucket boundaries of every distribution view, in both
    packages, are usable as a histogram: there is at least one, none is
    negative (or NaN), and they are strictly increasing. *)
Theorem distribution_bounds_ascending :
  (forall r : metrics.ViewRef,
     let bounds := Aggregation_bounds (Aggregation (metrics.deref r)) in
     ascending bounds = true
     /\ forallb (PrimFloat.leb 0) bounds = true
     /\ (forall b, Aggregation (metrics.deref r) = view_Distribution b -> b <> []))
  /\ (forall r : webhook_metrics.ViewRef,
     let bounds := Aggregation_bounds (Aggregation (webhook_metrics.deref r)) in
     ascending bounds = true
     /\ forallb (PrimFloat.leb 0) bounds = true
     /\ (forall b, Aggregation (webhook_metrics.deref r) = view_Distribution b -> b <> []))
  /\ metrics.DefaultPrometheusDistribution = webhook_metrics.DefaultPrometheusDistribution.
Proof.
  split_and!; [| | done];
    intros []; cbn zeta; (split_and!; [by vm_compute | by vm_compute | by intros b [= <-]]).
Qed.

(** X8: the names follow one scheme.  Every measure name starts with the
    prefix [sigs.kubernetes.io/controller-runtime/measures/]; the name of a
    view of pkg/metrics is the rest of its measure's name, and the name of
    a webhook view is that rest with [controller_runtime_] in front. *)
Theorem view_names_follow_measures :
  (forall r : metrics.ViewRef,
     Measure_Name (Measure (metrics.deref r)) = measures_prefix +:+ Name (metrics.deref r))
  /\ (forall r : webhook_metrics.ViewRef,
     Measure_Name (Measure (webhook_metrics.deref r))
       = measures_prefix +:+ short_name (Measure (webhook_metrics.deref r))
     /\ Name (webhook_metrics.deref r)
       = "controller_runtime_" +:+ short_name (Measure (webhook_metrics.deref r))).
Proof. split; by intros []. Qed.

(** X9: the eight tag keys of the two packages have pairwise different
    names, and every view lists keys of its own package only, none of them
    twice. *)
Theorem view_tag_keys_declared_once :
  NoDup (map tag_Key_Name
           [TagVerb; TagURL; TagCode; TagMethod; TagHost; TagName;
            webhook_metrics.TagWebhook; webhook_metrics.TagSucceeded])
  /\ (forall r : metrics.ViewRef,
        NoDup (TagKeys (metrics.deref r))
        /\ TagKeys (metrics.deref r)
           ⊆ [TagVerb; TagURL; TagCode; TagMethod; TagHost; TagName])
  /\ (forall r : webhook_metrics.ViewRef,
        NoDup (TagKeys (webhook_metrics.deref r))
        /\ TagKeys (webhook_metrics.deref r)
           ⊆ [webhook_metrics.TagWebhook; webhook_metrics.TagSucceeded]).
Proof.
  split_and!; [by_evaluation | |];
    intros []; split; by_evaluation.
Qed.

(** X10: sinks never alias: two sinks a provider hands out are equal only
    when they come from the same factory method and the same name, so
    metrics of different queues or reflectors, and different metrics of one
    queue, never record under the same measure and tag. *)
Theorem construct_injective (f f' : Factory) (n n' : string) :
  construct f n = construct f' n' <-> f = f' /\ n = n'.
Proof.
  split; [| by intros [-> ->]].
  intros H. split.
  - apply Factory_measure_injective.
    rewrite <- (construct_measure f n), <- (construct_measure f' n'). by rewrite H.
  - assert (Hm : Sink_mutators (construct f n) = Sink_mutators (construct f' n'))
      by (by rewrite H).
    rewrite !construct_mutators in Hm. by injection Hm.
Qed.

(** ** Sequences of recording operations *)

Lemma run_perform (rt : Runtime) (w : World rt) (op : RecordingOp) :
  outcome (run rt (perform op) w) = Returned tt
  /\ recorded (trace (run rt (perform op) w)) = [RecordingOp_measurement op]
  /\ concat (map inserted (trace (run rt (perform op) w)))
     = map Mutator_pair (RecordingOp_mutators op)
  /\ length (trace (run rt (perform op) w)) = RecordingOp_calls op.
Proof.
  destruct op; cbn [perform floatMetric_Set].
  1: by rewrite run_latencyAdapter_Observe.
  1: by rewrite run_resultAdapter_Increment.
  all: unfold floatMetric_Set, intMetric_Inc, intMetric_Dec, floatMetric_Observe;
       rewrite run_RecordWithTags_dropped; cbn; by rewrite app_nil_r.
Qed.

Lemma run_perform_silent (rt : Runtime) (w : World rt) (op : RecordingOp) :
  trace (run (silent rt) (perform op) w) = trace (run rt (perform op) w)
  /\ final (run (silent rt) (perform op) w) = final (run rt (perform op) w).
Proof.
  destruct op; cbn.
  1-2: destruct (reply rt (CallTagNew _ _) w) as [[ctx err] w1]; cbn;
       by destruct (reply rt (CallRecord _ _) w1) as [[] w2].
  all: by destruct (reply rt (CallRecordWithTags _ _ _) w) as [err w1].
Qed.

Lemma run_perform_all_silent (rt : Runtime) (ops : list RecordingOp) (w : World rt) :
  trace (run (silent rt) (perform_all ops) w) = trace (run rt (perform_all ops) w)
  /\ final (run (silent rt) (perform_all ops) w) = final (run rt (perform_all ops) w).
Proof.
  revert w. induction ops as [| op ops IH]; intros w; [done |].
  cbn [perform_all].
  rewrite (run_seq rt) by apply run_perform.
  rewrite (run_seq (silent rt)) by apply (run_perform (silent rt)).
  cbn [trace final].
  destruct (run_perform_silent rt w op) as [-> ->].
  by destruct (IH (final (run rt (perform op) w))) as [-> ->].
Qed.

(** One operation makes the calls of [RecordingOp_trace], and leaves the
    runtime in the state it is in after answering them. *)
Lemma run_perform_trace (rt : Runtime) (w : World rt) (op : RecordingOp) :
  trace (run rt (perform op) w) = RecordingOp_trace rt w op
  /\ final (run rt (perform op) w) = answer_all rt w (RecordingOp_trace rt w op).
Proof.
  destruct op; cbn [perform].
  1: by rewrite run_latencyAdapter_Observe.
  1: by rewrite run_resultAdapter_Increment.
  all: unfold floatMetric_Set, intMetric_Inc, intMetric_Dec, floatMetric_Observe;
       by rewrite run_RecordWithTags_dropped.
Qed.

Lemma answer_all_app (rt : Runtime) (w : World rt) (cs cs' : list Call) :
  answer_all rt w (cs ++ cs') = answer_all rt (answer_all rt w cs) cs'.
Proof. apply fold_left_app. Qed.

Lemma run_perform_all_trace (rt : Runtime) (ops : list RecordingOp) (w : World rt) :
  trace (run rt (perform_all ops) w) = expected_trace rt ops w
  /\ final (run rt (perform_all ops) w) = answer_all rt w (expected_trace rt ops w).
Proof.
  revert w. induction ops as [| op ops IH]; intros w; [done |].
  cbn [perform_all expected_trace]. rewrite run_seq by apply run_perform.
  cbn [trace final].
  destruct (run_perform_trace rt w op) as [-> ->].
  destruct (IH (answer_all rt w (RecordingOp_trace rt w op))) as [-> ->].
  by rewrite answer_all_app.
Qed.

(** X11: recording operations compose: any sequence of operations, on any
    adapters and in any order, returns normally against every runtime, and
    the calls it makes are those of its operations, one operation after the
    other.  Each metric-struct operation makes one [stats.RecordWithTags]
    call with its own mutators and its own measurement; each client-adapter
    operation makes a [tag.New] call with its own tag values and then one
    [stats.Record] call with its own measurement under the very context
    that [tag.New] call was answered; nothing is carried from one operation
    to the next but the runtime's own state.  So one measurement per
    operation is handed over, in order; and the errors the runtime answers
    change neither the calls nor the runtime's final state. *)
Theorem operations_compose (rt : Runtime) (w : World rt) (ops : list RecordingOp) :
  let r := run rt (perform_all ops) w in
  outcome r = Returned tt
  /\ trace r = expected_trace rt ops w
  /\ final r = answer_all rt w (trace r)
  /\ recorded (trace r) = map RecordingOp_measurement ops
  /\ concat (map inserted (trace r))
     = concat (map (fun op => map Mutator_pair (RecordingOp_mutators op)) ops)
  /\ length (trace r) = sum_list (map RecordingOp_calls ops)
  /\ trace (run (silent rt) (perform_all ops) w) = trace r
  /\ final (run (silent rt) (perform_all ops) w) = final r.
Proof.
  cbn zeta.
  destruct (run_perform_all_silent rt ops w) as [-> ->].
  destruct (run_perform_all_trace rt ops w) as [Htr Hfin].
  assert (Hrest : outcome (run rt (perform_all ops) w) = Returned tt
    /\ recorded (trace (run rt (perform_all ops) w)) = map RecordingOp_measurement ops
    /\ concat (map inserted (trace (run rt (perform_all ops) w)))
       = concat (map (fun op => map Mutator_pair (RecordingOp_mutators op)) ops)
    /\ length (trace (run rt (perform_all ops) w))
       = sum_list (map RecordingOp_calls ops)).
  { clear Htr Hfin. revert w. induction ops as [| op ops IH]; intros w; [done |].
    cbn [perform_all]. rewrite run_seq by apply run_perform.
    cbn [trace outcome final].
    destruct (run_perform rt w op) as (_ & Hrec & Hins & Hlen).
    destruct (IH (final (run rt (perform op) w))) as (Hout & Hrec' & Hins' & Hlen').
    split_and!; try done.
    - unfold recorded in *. by rewrite map_app, concat_app, Hrec, Hrec'.
    - by rewrite map_app, concat_app, Hins, Hins'.
    - rewrite length_app, Hlen, Hlen'. done. }
  destruct Hrest as (Hout & Hrec & Hins & Hlen).
  split_and!; try done. by rewrite Hfin, Htr.
Qed.

(** X12: the metric structs never look at the runtime: over any sequence
    of [Inc], [Dec], [Observe] and [Set] on any metric structs the calls
    made are fixed by the operations alone, one [stats.RecordWithTags] each,
    under the background context, with the struct's own mutators and one
    measurement; neither [tag.New] nor [stats.Record] is ever called, and
    the runtime's state and answers do not matter. *)
Theorem metric_struct_calls_fixed (rt : Runtime) (w : World rt)
  (ops : list RecordingOp) :
  Forall (fun op => on_metric_struct op = true) ops ->
  trace (run rt (perform_all ops) w)
  = map (fun op => CallRecordWithTags context_Background (RecordingOp_mutators op)
                     [RecordingOp_measurement op]) ops.
Proof.
  revert w. induction ops as [| op ops IH]; intros w H; [done |].
  inversion_clear H as [| ? ? Hop Hops].
  cbn [perform_all]. rewrite run_seq by apply run_perform.
  cbn [trace map]. rewrite (IH _ Hops).
  destruct op; try discriminate Hop; cbn [perform floatMetric_Set];
    unfold floatMetric_Set, intMetric_Inc, intMetric_Dec, floatMetric_Observe;
    by rewrite run_RecordWithTags_dropped.
Qed.

Lemma metric_struct_calls_fixed_witness :
  let depth := workqueueMetricsProvider.NewDepthMetric "q" in
  let work := workqueueMetricsProvider.NewWorkDurationMetric "q" in
  let ops := [OpInc depth; OpObserve work 0.5%float; OpDec depth] in
  trace (run failing_runtime (perform_all ops) 0%nat)
  = map (fun op => CallRecordWithTags context_Background (RecordingOp_mutators op)
                     [RecordingOp_measurement op]) ops.
Proof.
  cbv zeta.
  apply (metric_struct_calls_fixed failing_runtime 0%nat).
  repeat constructor.
Defined.
